(** * Video feature connector: decoding videos into frame sequences

    A shallow embedding of [tensorflow_datasets/core/features/video_feature.py]:
    the [Video] connector, its private [_ffmpeg_decode] method and its
    [encode_example] method, together with the part of the operating
    system they talk to (temporary names, files, directories, the external
    [ffmpeg] process).

    Python exceptions are the [Raise] results of a state-and-error monad
    over a [world] that also records the effects performed;
    [try ... finally] is the combinator [try_finally].

    What lies outside the program is modelled as follows.  The decoder is
    an oracle of the environment; it writes nowhere but in the directory
    of its output pattern.  [os.unlink] and [shutil.rmtree] fail exactly
    when their target does not exist, and a file that exists can be read.
    The names proposed by [tempfile] come from a supply carried by the
    world; a name already in use is skipped, as [tempfile] does.

    An input that is neither an array nor a string is an object that has
    or lacks the methods [seek] and [read].  The methods of a file
    object may raise, and [read()] returns bytes or, for a file opened
    in text mode, text; [communicate] is the one of Python 3, which
    raises [TypeError] when it is handed text for a binary pipe. *)

From Stdlib Require Import String Ascii ZArith List DecimalString.
From stdpp Require Import gmap strings list fin_maps sorting.

Local Open Scope string_scope.
Local Open Scope list_scope.

(** ** Python values *)

(** [bytes] and text both are sequences of 8-bit characters. *)
Abbreviation bytes := string.

(** A [numpy.ndarray]: its shape and its flattened [uint8] data. *)
Record ndarray := { nd_shape : list nat; nd_data : list N }.

Inductive exn :=
| ValueError (msg : string)
| AttributeError (attr : string)
| TypeError (msg : string)
| UnsupportedOperation (msg : string)
| IndexError
| OSError (path : string)
| IOError (path : string)
| FileExistsError
| NotFoundError (path : string)
| AlreadyExistsError (path : string)
| DataLossError (path : string).

(** What [read()] hands back: [bytes] from a stream opened in binary
    mode, text ([str]) from a stream opened in text mode. *)
Inductive pydata :=
| PyBytes (b : bytes)
| PyText (s : string).

(** The ways in which a file object can let [_ffmpeg_decode] down:
    [seek(0)] raises (a closed file raises [ValueError], a pipe or a
    socket [io.UnsupportedOperation]); [read()] raises (a file opened for
    writing only, or a file in text mode whose bytes do not decode); or
    the file was opened in text mode, as by [gfile.GFile(path)] or
    [open(path)], and [read()] returns text. *)
Inductive stream_fault :=
| SeekRaises (e : exn)
| ReadRaises (e : exn)
| TextMode.

(** Any object that is neither an array nor a string is used by duck
    typing: [_ffmpeg_decode] calls [seek(0)] and then [read()] on it.
    [ob_content] is what [read()] returns after the rewind, and
    [ob_fault] says how the methods of a file object misbehave, if they
    do. *)
Record pyobject := {
  ob_has_seek : bool;
  ob_has_read : bool;
  ob_content : bytes;
  ob_fault : option stream_fault
}.

Inductive pyvalue :=
| PyArray (a : ndarray)
| PyStr (s : string)
| PyObj (o : pyobject).

(** A readable stream is an object offering both methods. *)
Definition readable_stream (o : pyobject) : bool :=
  ob_has_seek o && ob_has_read o.

(** The fault of a file object.  An object that lacks [seek] or [read]
    is no file object: it is described by the method it lacks, and the
    methods it has work. *)
Definition file_fault (o : pyobject) : option stream_fault :=
  if readable_stream o then ob_fault o else None.

(** What [communicate] is handed: bytes that can be written to the
    decoder's standard input (or nothing), or text. *)
Definition stdin_bytes (data : option pydata) : option bytes :=
  match data with
  | Some (PyBytes b) => Some b
  | Some (PyText _) | None => None
  end.

Definition stdin_text (data : option pydata) : option string :=
  match data with
  | Some (PyText s) => Some s
  | Some (PyBytes _) | None => None
  end.

Inductive result (A : Type) :=
| Ok (a : A)
| Raise (e : exn).
Arguments Ok {A} a.
Arguments Raise {A} e.

Definition is_raise {A} (r : result A) : bool :=
  match r with Ok _ => false | Raise _ => true end.

(** What [encode_example] hands to [Sequence.encode_example]: the array
    itself, or the frames (each a [BytesIO] holding one file's bytes). *)
Inductive encoded :=
| EncArray (a : ndarray)
| EncFrames (images : list bytes).

(** ** Effects *)

Inductive event :=
| EvSeek
| EvRead
| EvMktemp (p : string)
| EvMkdtemp (d : string)
| EvCopy (src dst : string)
| EvPopen (argv : list string) (stdin : option bytes)
| EvPopenText (argv : list string) (text : string)
| EvListdir (d : string)
| EvOpen (p : string)
| EvRmtree (d : string)
| EvUnlink (p : string)
| EvSequenceEncode (v : encoded).

(** [EvPopen argv stdin] is [subprocess.Popen(argv, ...)] followed by
    [communicate(stdin)] with nothing or with bytes to write;
    [EvPopenText argv text] is the same [Popen] followed by a
    [communicate] that is handed text.

    Events that start a subprocess, and events that acquire a temporary
    name, file or directory. *)
Definition spawns (e : event) : bool :=
  match e with EvPopen _ _ | EvPopenText _ _ => true | _ => false end.

Definition acquires (e : event) : bool :=
  match e with
  | EvMktemp _ | EvMkdtemp _ | EvCopy _ _ => true
  | _ => false
  end.

(** The outcome of [subprocess.Popen(...)] followed by [communicate]:
    either the process could not be started ([OSError]), or it ran to
    completion. *)
Inductive proc_outcome :=
| SpawnError (msg : string)
| Exited (returncode : Z) (stdout_data stderr_data : bytes)
         (written : gmap string bytes).

(** The local file system and the supply of temporary names:
    regular files by path, the directories made by [mkdtemp] with their
    entries by file name, and the candidate names that the name
    generator of [tempfile] will propose, in order. *)
Record world := {
  w_files : gmap string bytes;
  w_dirs : gmap string (gmap string bytes);
  w_names : list string
}.

Definition path_exists (w : world) (p : string) : bool :=
  match w_files w !! p, w_dirs w !! p with
  | None, None => false
  | _, _ => true
  end.

Definition set_files (f : gmap string bytes) (w : world) : world :=
  {| w_files := f; w_dirs := w_dirs w; w_names := w_names w |}.

Definition set_dirs (d : gmap string (gmap string bytes)) (w : world) : world :=
  {| w_files := w_files w; w_dirs := d; w_names := w_names w |}.

Definition set_names (n : list string) (w : world) : world :=
  {| w_files := w_files w; w_dirs := w_dirs w; w_names := n |}.

(** ** The monad *)

(** A run ends with a value or an exception, in a new world, having
    performed some effects. *)
Record run (A : Type) := Run {
  res : result A;
  post : world;
  events : list event
}.
Arguments Run {A} res post events.
Arguments res {A} r.
Arguments post {A} r.
Arguments events {A} r.

Definition M (A : Type) : Type := world -> run A.

Definition ret {A} (a : A) : M A := fun w => Run (Ok a) w [].

Definition raise {A} (e : exn) : M A := fun w => Run (Raise e) w [].

Definition bind {A B} (m : M A) (k : A -> M B) : M B := fun w =>
  let r1 := m w in
  match res r1 with
  | Ok a =>
    let r2 := k a (post r1) in
    Run (res r2) (post r2) (events r1 ++ events r2)
  | Raise e => Run (Raise e) (post r1) (events r1)
  end.

(** [try: body finally: fin].  The [finally] clause always runs; when it
    raises, its exception is the one that propagates. *)
Definition try_finally {A} (body : M A) (fin : M unit) : M A := fun w =>
  let r1 := body w in
  let r2 := fin (post r1) in
  match res r2 with
  | Ok _ => Run (res r1) (post r2) (events r1 ++ events r2)
  | Raise e => Run (Raise e) (post r2) (events r1 ++ events r2)
  end.

Declare Scope py_scope.
Delimit Scope py_scope with py.
Notation "x <- m ;; k" := (bind m (fun x => k))
  (at level 100, m at next level, right associativity) : py_scope.
Notation "m ;; k" := (bind m (fun _ => k))
  (at level 100, right associativity) : py_scope.
Local Open Scope py_scope.

(** [for x in l: acc.append(f(x))]. *)
Fixpoint for_each {A B} (f : A -> M B) (l : list A) : M (list B) :=
  match l with
  | [] => ret []
  | x :: l' => y <- f x ;; ys <- for_each f l' ;; ret (y :: ys)
  end.

(** ** Strings *)

(** [template.format(a1, ..., an)] for templates whose fields are all
    written [{}]: each field takes the next argument; too few arguments
    is Python's [IndexError]. *)
Fixpoint str_format (template : string) (args : list string) : option string :=
  match template with
  | EmptyString => Some EmptyString
  | String c rest =>
    match rest with
    | EmptyString => Some (String c EmptyString)
    | String c' rest' =>
      if Ascii.eqb c "{" && Ascii.eqb c' "}" then
        match args with
        | [] => None
        | arg :: args' => String.append arg <$> str_format rest' args'
        end
      else String c <$> str_format rest args
    end
  end.

(** [str(n)] for an integer. *)
Definition str_of_int (n : Z) : string := NilZero.string_of_int (Z.to_int n).

(** [sep.join(l)]. *)
Definition str_join (sep : string) (l : list string) : string :=
  String.concat sep l.

Definition startswith_sep (s : string) : bool :=
  match s with
  | String "/"%char _ => true
  | _ => false
  end.

Fixpoint endswith_sep (s : string) : bool :=
  match s with
  | EmptyString => false
  | String c EmptyString => Ascii.eqb c "/"%char
  | String _ s' => endswith_sep s'
  end.

(** [os.path.join(a, b)] of [posixpath]. *)
Definition os_path_join (a b : string) : string :=
  if startswith_sep b then b
  else if String.eqb a "" || endswith_sep a then a +:+ b
  else a +:+ "/" +:+ b.

(** Python orders strings lexicographically, character by character. *)
Definition str_le (s1 s2 : string) : Prop := String.leb s1 s2 = true.

#[global] Instance str_le_dec : RelDecision str_le.
Proof. intros s1 s2. unfold str_le. apply _. Defined.

(** [sorted(l)] on a list of strings. *)
Definition sorted (l : list string) : list string := merge_sort str_le l.

(** ** The environment of a call *)

(** Everything outside the connector that its behaviour depends on.
    - [env_decoder]: the external [ffmpeg] binary.  Given the argument
      vector, the bytes piped to its standard input and the local files
      it can read, it yields the process outcome; [written] are the
      frame files it leaves in the directory of its output pattern.
    - [env_listdir_rank]: [os.listdir] enumerates a directory in an order
      of the file system's own; entries come by increasing rank.
    - [env_remote]: files that [tf.gfile] can read but that are not in
      the local file system.
    - [env_copy_fault]: a transfer that breaks while [tf.gfile.Copy]
      reads a source; the bytes that had reached the destination.
    - [env_str_bytes]: how [str.format] renders a [bytes] value.
    - [env_sequence_encode]: [Sequence.encode_example], the parent
      class's method, with results in [R]. *)
Record environment (R : Type) := {
  env_decoder : list string -> option bytes -> gmap string bytes -> proc_outcome;
  env_listdir_rank : string -> nat;
  env_remote : gmap string bytes;
  env_copy_fault : string -> option bytes;
  env_str_bytes : bytes -> string;
  env_sequence_encode : encoded -> result R
}.
Arguments env_decoder {R} _ _ _ _.
Arguments env_listdir_rank {R} _ _.
Arguments env_remote {R} _.
Arguments env_copy_fault {R} _ _.
Arguments env_str_bytes {R} _ _.
Arguments env_sequence_encode {R} _ _.

Definition set_listdir_rank {R} (rank : string -> nat) (env : environment R)
    : environment R :=
  {| env_decoder := env_decoder env; env_listdir_rank := rank;
     env_remote := env_remote env; env_copy_fault := env_copy_fault env;
     env_str_bytes := env_str_bytes env;
     env_sequence_encode := env_sequence_encode env |}.

(** ** The connector *)

Record Video := {
  _shape : list (option nat);
  _copy_locally : bool;
  _encoding_format : string;
  _extra_ffmpeg_args : list string
}.

(** [Video.__init__]: only shapes of rank 4 are accepted. *)
Definition Video_init (shape : list (option nat)) (encoding_format : string)
    (copy_locally : bool) (ffmpeg_extra_args : list string) : result Video :=
  if negb (Nat.eqb (length shape) 4) then
    Raise (ValueError "Video shape should be of rank 4")
  else
    Ok {| _shape := shape; _copy_locally := copy_locally;
          _encoding_format := encoding_format;
          _extra_ffmpeg_args := ffmpeg_extra_args |}.

Definition set_copy_locally (b : bool) (self : Video) : Video :=
  {| _shape := _shape self; _copy_locally := b;
     _encoding_format := _encoding_format self;
     _extra_ffmpeg_args := _extra_ffmpeg_args self |}.

Section Semantics.

Context {R : Type}.
Variable env : environment R.

(** *** Primitives *)

(** [fobj.seek(0)] and [fobj.read()] on a duck-typed object: the
    attribute is looked up, then the method is called, and the method of
    a file object may raise. *)
Definition obj_seek (o : pyobject) : M unit := fun w =>
  if ob_has_seek o then
    match file_fault o with
    | Some (SeekRaises e) => Run (Raise e) w []
    | _ => Run (Ok tt) w [EvSeek]
    end
  else Run (Raise (AttributeError "seek")) w [].

Definition obj_read (o : pyobject) : M pydata := fun w =>
  if ob_has_read o then
    match file_fault o with
    | Some (ReadRaises e) => Run (Raise e) w []
    | Some TextMode => Run (Ok (PyText (ob_content o))) w [EvRead]
    | _ => Run (Ok (PyBytes (ob_content o))) w [EvRead]
    end
  else Run (Raise (AttributeError "read")) w [].

(** The name generator of [tempfile] proposes candidate names one after
    the other; the first one that does not exist is taken. *)
Fixpoint first_unused (w : world) (names : list string)
    : option (string * list string) :=
  match names with
  | [] => None
  | n :: rest =>
    if path_exists w n then first_unused w rest else Some (n, rest)
  end.

(** [tempfile.mktemp()]: a name that does not exist; nothing is created. *)
Definition tempfile_mktemp : M string := fun w =>
  match first_unused w (w_names w) with
  | None => Run (Raise FileExistsError) (set_names [] w) []
  | Some (p, rest) => Run (Ok p) (set_names rest w) [EvMktemp p]
  end.

(** [tempfile.mkdtemp()]: creates an empty directory under a new name. *)
Definition tempfile_mkdtemp : M string := fun w =>
  match first_unused w (w_names w) with
  | None => Run (Raise FileExistsError) (set_names [] w) []
  | Some (d, rest) =>
    Run (Ok d) (set_dirs (<[d := ∅]> (w_dirs w)) (set_names rest w))
        [EvMkdtemp d]
  end.

(** What [tf.gfile] reads at a path: a local file, else a remote one. *)
Definition gfile_read (w : world) (p : string) : option bytes :=
  match w_files w !! p with
  | Some c => Some c
  | None => env_remote env !! p
  end.

(** [tf.gfile.Copy(src, dst)], without overwriting.  A source that
    cannot be opened leaves no destination file; a transfer that breaks
    leaves the part already written. *)
Definition gfile_Copy (src dst : string) : M unit := fun w =>
  match gfile_read w src with
  | None => Run (Raise (NotFoundError src)) w [EvCopy src dst]
  | Some c =>
    if path_exists w dst then
      Run (Raise (AlreadyExistsError dst)) w [EvCopy src dst]
    else
      match env_copy_fault env src with
      | Some part =>
        Run (Raise (DataLossError src))
            (set_files (<[dst := part]> (w_files w)) w) [EvCopy src dst]
      | None =>
        Run (Ok tt) (set_files (<[dst := c]> (w_files w)) w) [EvCopy src dst]
      end
  end.

(** [os.unlink(p)]. *)
Definition os_unlink (p : string) : M unit := fun w =>
  match w_files w !! p with
  | None => Run (Raise (OSError p)) w [EvUnlink p]
  | Some _ => Run (Ok tt) (set_files (delete p (w_files w)) w) [EvUnlink p]
  end.

(** [shutil.rmtree(d)]. *)
Definition shutil_rmtree (d : string) : M unit := fun w =>
  match w_dirs w !! d with
  | None => Run (Raise (OSError d)) w [EvRmtree d]
  | Some _ => Run (Ok tt) (set_dirs (delete d (w_dirs w)) w) [EvRmtree d]
  end.

Definition rank_le (n1 n2 : string) : Prop :=
  env_listdir_rank env n1 <= env_listdir_rank env n2.

#[global] Instance rank_le_dec : RelDecision rank_le.
Proof. intros n1 n2. unfold rank_le. apply _. Defined.

(** [os.listdir(d)]. *)
Definition os_listdir (d : string) : M (list string) := fun w =>
  match w_dirs w !! d with
  | None => Run (Raise (OSError d)) w [EvListdir d]
  | Some entries =>
    Run (Ok (merge_sort rank_le (map_to_list entries).*1)) w
        [EvListdir d]
  end.

(** [with open(os.path.join(d, name), 'rb') as f: f.read()]. *)
Definition open_read (d name : string) : M bytes := fun w =>
  match w_dirs w !! d with
  | None => Run (Raise (IOError (os_path_join d name))) w
                [EvOpen (os_path_join d name)]
  | Some entries =>
    match entries !! name with
    | None => Run (Raise (IOError (os_path_join d name))) w
                  [EvOpen (os_path_join d name)]
    | Some c => Run (Ok c) w [EvOpen (os_path_join d name)]
    end
  end.

(** The message of the [TypeError] that [communicate] raises when it is
    handed text for a pipe opened in binary mode. *)
Definition bytes_required : string :=
  "a bytes-like object is required, not 'str'".

(** [subprocess.Popen(args, stdin=PIPE, stdout=PIPE, stderr=PIPE)]
    followed by [communicate(stdin)]; [outdir] is the directory of the
    output pattern, where the decoder's files appear.  The pipes are
    opened in binary mode: handed text, [communicate] raises [TypeError]
    before it has written anything, the process having been started;
    whether the process can be started does not depend on what is to be
    written to it. *)
Definition Popen_communicate (args : list string) (stdin : option pydata)
    (outdir : string) : M (Z * bytes * bytes) := fun w =>
  match stdin with
  | Some (PyText text) =>
    match env_decoder env args None (w_files w) with
    | SpawnError msg => Run (Raise (OSError msg)) w [EvPopenText args text]
    | Exited _ _ _ _ =>
      Run (Raise (TypeError bytes_required)) w [EvPopenText args text]
    end
  | _ =>
    match env_decoder env args (stdin_bytes stdin) (w_files w) with
    | SpawnError msg =>
      Run (Raise (OSError msg)) w [EvPopen args (stdin_bytes stdin)]
    | Exited rc out err written =>
      Run (Ok (rc, out, err))
          (set_dirs (alter (fun old => written ∪ old) outdir (w_dirs w)) w)
          [EvPopen args (stdin_bytes stdin)]
    end
  end.

(** [super(Video, self).encode_example(encoded_video)]. *)
Definition super_encode_example (v : encoded) : M R := fun w =>
  Run (env_sequence_encode env v) w [EvSequenceEncode v].

(** *** [Video._ffmpeg_decode] *)

Definition ffmpeg_path : string := "ffmpeg".

Definition newline : string := String "010" EmptyString.

Definition error_template : string :=
  "ffmpeg returned error code {}, command={}" +:+ newline +:+
  "stdout={}" +:+ newline +:+ "stderr={}" +:+ newline.

(** Lines 101 to 107: the first arguments and the standard input. *)
Definition ffmpeg_input (path_or_fobj : pyvalue)
    : M (list string * option pydata) :=
  match path_or_fobj with
  | PyStr s => ret ([ffmpeg_path; "-i"; s], None)
  | PyObj o =>
    obj_seek o ;;
    ffmpeg_stdin <- obj_read o ;;
    ret ([ffmpeg_path; "-i"; "pipe:0"], Some ffmpeg_stdin)
  | PyArray _ => raise (AttributeError "seek")
  end.

(** Lines 114 to 131: the body of the [try] block. *)
Definition run_and_collect (ffmpeg_args : list string)
    (ffmpeg_stdin : option pydata) (ffmpeg_dir : string) : M (list bytes) :=
  p <- Popen_communicate ffmpeg_args ffmpeg_stdin ffmpeg_dir ;;
  let '(ffmpeg_ret_code, stdout_data, stderr_data) := p in
  if negb (Z.eqb ffmpeg_ret_code 0) then
    match str_format error_template
            [str_of_int ffmpeg_ret_code; str_join " " ffmpeg_args;
             env_str_bytes env stdout_data; env_str_bytes env stderr_data] with
    | Some msg => raise (ValueError msg)
    | None => raise IndexError
    end
  else
    names <- os_listdir ffmpeg_dir ;;
    images <- for_each (fun image_path => open_read ffmpeg_dir image_path)
                       (sorted names) ;;
    ret images.

Definition _ffmpeg_decode (self : Video) (path_or_fobj : pyvalue)
    : M (list bytes) :=
  p <- ffmpeg_input path_or_fobj ;;
  let '(ffmpeg_args, ffmpeg_stdin) := p in
  ffmpeg_dir <- tempfile_mkdtemp ;;
  let output_pattern :=
    os_path_join ffmpeg_dir ("%010d." +:+ _encoding_format self) in
  let ffmpeg_args := ffmpeg_args ++ _extra_ffmpeg_args self in
  let ffmpeg_args := ffmpeg_args ++ [output_pattern] in
  try_finally (run_and_collect ffmpeg_args ffmpeg_stdin ffmpeg_dir)
              (shutil_rmtree ffmpeg_dir).

(** *** [Video.encode_example] *)

(** Lines 143 and 144: the body of the [try] block of the local copy. *)
Definition copy_and_decode (self : Video) (path video_temp_path : string)
    : M encoded :=
  gfile_Copy path video_temp_path ;;
  images <- _ffmpeg_decode self (PyStr video_temp_path) ;;
  ret (EncFrames images).

Definition encode_example (self : Video) (video_or_path_or_fobj : pyvalue)
    : M R :=
  encoded_video <-
    match video_or_path_or_fobj with
    | PyArray a => ret (EncArray a)
    | PyStr s =>
      if _copy_locally self then
        video_temp_path <- tempfile_mktemp ;;
        try_finally (copy_and_decode self s video_temp_path)
                    (os_unlink video_temp_path)
      else
        images <- _ffmpeg_decode self video_or_path_or_fobj ;;
        ret (EncFrames images)
    | PyObj _ =>
      images <- _ffmpeg_decode self video_or_path_or_fobj ;;
      ret (EncFrames images)
    end ;;
  super_encode_example encoded_video.

End Semantics.

(** ** Vocabulary of the statements *)

(** The message of the [ValueError] raised on a nonzero exit status. *)
Definition error_message {R} (env : environment R) (rc : Z)
    (argv : list string) (out err : bytes) : string :=
  "ffmpeg returned error code " +:+ str_of_int rc +:+
  ", command=" +:+ str_join " " argv +:+ newline +:+
  "stdout=" +:+ env_str_bytes env out +:+ newline +:+
  "stderr=" +:+ env_str_bytes env err +:+ newline.

(** The contents of a directory's files, by ascending file name. *)
Definition frames_by_name (entries : gmap string bytes) : list bytes :=
  (fun n => default EmptyString (entries !! n)) <$> sorted (map_to_list entries).*1.

(** The argument vector as the documentation of [__init__] gives it:
    [ffmpeg -i <input_file> <ffmpeg_extra_args> %010d.<encoding_format>],
    the pattern being inside the directory [d]. *)
Definition ffmpeg_argv (self : Video) (source d : string) : list string :=
  [ffmpeg_path; "-i"; source] ++ _extra_ffmpeg_args self ++
  [os_path_join d ("%010d." +:+ _encoding_format self)].

(** The place of a name in a listing (its length for a name not in it). *)
Fixpoint position (l : list string) (n : string) : nat :=
  match l with
  | [] => 0
  | x :: l' => if String.eqb x n then 0 else S (position l' n)
  end.

(** Neither a subprocess nor a temporary resource. *)
Definition quiet (e : event) : Prop := spawns e = false /\ acquires e = false.

(** Two decoder runs that end alike: the same exit status and, when it
    is zero, the same frame files. *)
Definition same_frames (o1 o2 : proc_outcome) : Prop :=
  match o1, o2 with
  | Exited rc1 _ _ written1, Exited rc2 _ _ written2 =>
    rc1 = rc2 /\ (rc1 = 0%Z -> written1 = written2)
  | SpawnError _, SpawnError _ => True
  | _, _ => False
  end.

(** A decoder whose exit status and frames are determined by the content
    of the file named after [-i], whatever that file and the output
    directory are called. *)
Definition reads_content_only {R} (env : environment R) (self : Video) : Prop :=
  forall (src1 src2 d1 d2 : string) (files1 files2 : gmap string bytes),
    src1 <> "pipe:0" -> src2 <> "pipe:0" ->
    files1 !! src1 = files2 !! src2 ->
    same_frames (env_decoder env (ffmpeg_argv self src1 d1) None files1)
                (env_decoder env (ffmpeg_argv self src2 d2) None files2).

(** Two results that agree: the same value, or two errors of the same
    kind (the messages of two decode errors name their own command). *)
Definition same_error (e1 e2 : exn) : Prop :=
  match e1, e2 with
  | ValueError _, ValueError _ => True
  | OSError _, OSError _ => True
  | _, _ => e1 = e2
  end.

Definition agree {A} (r1 r2 : result A) : Prop :=
  match r1, r2 with
  | Ok a, Ok b => a = b
  | Raise e1, Raise e2 => same_error e1 e2
  | _, _ => False
  end.

(** ** A small concrete environment *)

Module Demo.

Fixpoint pad_left (n : nat) (s : string) : string :=
  match n with
  | 0 => s
  | S n' => if Nat.ltb (String.length s) 10 then pad_left n' ("0" +:+ s) else s
  end.

(** [%010d.png] at index [i]. *)
Definition frame_name (i : nat) : string :=
  pad_left 10 (NilZero.string_of_uint (Nat.to_uint i)) +:+ ".png".

(** A toy video format: every byte of the input is one frame. *)
Fixpoint frames_of (i : nat) (content : string) : gmap string bytes :=
  match content with
  | EmptyString => ∅
  | String c rest => <[frame_name i := String c EmptyString]> (frames_of (S i) rest)
  end.

(** A decoder that reads its input from the local path given after [-i],
    or from its standard input when that is [pipe:0]; it cannot open a
    path that is not a local file. *)
Definition decoder (argv : list string) (stdin : option bytes)
    (files : gmap string bytes) : proc_outcome :=
  match nth_error argv 2 with
  | None => Exited 1 "" "usage" ∅
  | Some src =>
    match (if String.eqb src "pipe:0" then stdin else files !! src) with
    | None => Exited 1 "" (src +:+ ": No such file or directory") ∅
    | Some content => Exited 0 "" "" (frames_of 1 content)
    end
  end.

(** A decoder run that ends normally without having written a frame. *)
Definition no_frame_decoder (argv : list string) (stdin : option bytes)
    (files : gmap string bytes) : proc_outcome :=
  Exited 0 "" "" ∅.

Definition env : environment encoded :=
  {| env_decoder := decoder;
     env_listdir_rank := fun n => 20 - String.length n;
     env_remote := {[ "gs://bucket/video.mkv" := "xyz" ]};
     env_copy_fault := fun src =>
       if String.eqb src "broken.mkv" then Some "C" else None;
     env_str_bytes := fun b => b;
     env_sequence_encode := Ok |}.

Definition no_frame_env : environment encoded :=
  {| env_decoder := no_frame_decoder;
     env_listdir_rank := fun _ => 0;
     env_remote := ∅;
     env_copy_fault := fun _ => None;
     env_str_bytes := fun b => b;
     env_sequence_encode := Ok |}.

Definition world0 : world :=
  {| w_files := {[ "video.mkv" := "CAB"; "broken.mkv" := "CAB" ]};
     w_dirs := ∅;
     w_names := ["/tmp/tmp1"; "/tmp/tmp2"; "/tmp/tmp3"] |}.

Definition video : Video :=
  {| _shape := [None; Some 4; Some 2; Some 3]; _copy_locally := false;
     _encoding_format := "png"; _extra_ffmpeg_args := ["-r"; "1"] |}.

Definition video_copy : Video := set_copy_locally true video.

Definition stream : pyobject :=
  {| ob_has_seek := true; ob_has_read := true; ob_content := "QR";
     ob_fault := None |}.

(** The integer [42] as an input: it has neither [seek] nor [read]. *)
Definition an_int : pyobject :=
  {| ob_has_seek := false; ob_has_read := false; ob_content := "";
     ob_fault := None |}.

Definition argv0 : list string :=
  ["ffmpeg"; "-i"; "video.mkv"; "-r"; "1"; "/tmp/tmp1/%010d.png"].

End Demo.

(** ** Vocabulary of the further properties *)

(** How many subprocesses a sequence of effects starts. *)
Definition spawn_count (l : list event) : nat := length (List.filter spawns l).

(** Events that look into an output directory. *)
Definition reads (e : event) : bool :=
  match e with
  | EvListdir _ | EvOpen _ => true
  | _ => false
  end.

(** The events that [_ffmpeg_decode] itself can perform. *)
Definition decode_event (e : event) : Prop :=
  match e with
  | EvMktemp _ | EvCopy _ _ | EvUnlink _ | EvSequenceEncode _ => False
  | _ => True
  end.

(** Events of the local copy: naming, copying and unlinking a temporary
    file. *)
Definition copies (e : event) : bool :=
  match e with
  | EvMktemp _ | EvCopy _ _ | EvUnlink _ => true
  | _ => false
  end.

(** Calls of the parent class's [encode_example]. *)
Definition calls_parent (e : event) : bool :=
  match e with EvSequenceEncode _ => true | _ => false end.

(** A decoder that treats the bytes on its standard input as it treats
    a file with the same content. *)
Definition pipe_like_file {R} (env : environment R) (self : Video) : Prop :=
  forall (src d : string) (files : gmap string bytes) (c : bytes),
    src <> "pipe:0" -> files !! src = Some c ->
    same_frames (env_decoder env (ffmpeg_argv self src d) None files)
                (env_decoder env (ffmpeg_argv self "pipe:0" d) (Some c) files).

(** The decimal digit [d] as a character. *)
Definition digit_char (d : N) : ascii := ascii_of_N (48 + d).

(** The [k] low decimal digits of [i], high digit first. *)
Fixpoint fixed_width (k : nat) (i : N) : string :=
  match k with
  | 0 => EmptyString
  | S k' =>
    String (digit_char (i / 10 ^ N.of_nat k'))
           (fixed_width k' (i mod 10 ^ N.of_nat k'))
  end.

(** What [printf] makes of [%010d]: ten digits, padded with zeros on the
    left; a number with more digits is written in full. *)
Definition printf_010d (i : N) : string :=
  if (i <? 10 ^ 10)%N then fixed_width 10 i
  else NilZero.string_of_uint (N.to_uint i).

(** The file that the pattern ['%010d.' + encoding_format] of line 110
    names at index [i]. *)
Definition frame_file_name (encoding_format : string) (i : N) : string :=
  printf_010d i +:+ "." +:+ encoding_format.

(** Frames written one per file, numbered upwards from [start]. *)
Fixpoint numbered (encoding_format : string) (start : N) (frames : list bytes)
    : list (string * bytes) :=
  match frames with
  | [] => []
  | c :: frames' =>
    (frame_file_name encoding_format start, c) ::
    numbered encoding_format (start + 1) frames'
  end.

(** A machine on which the [ffmpeg] binary is not installed. *)
Definition no_ffmpeg_env : environment encoded :=
  {| env_decoder := fun _ _ _ => SpawnError "ffmpeg: No such file or directory";
     env_listdir_rank := fun _ => 0;
     env_remote := ∅;
     env_copy_fault := fun _ => None;
     env_str_bytes := fun b => b;
     env_sequence_encode := Ok |}.

(** A stream over the bytes of the demo video. *)
Definition demo_video_stream : pyobject :=
  {| ob_has_seek := true; ob_has_read := true; ob_content := "CAB";
     ob_fault := None |}.

(** The demo video opened in text mode, as [gfile.GFile(path)] opens
    it. *)
Definition demo_text_stream : pyobject :=
  {| ob_has_seek := true; ob_has_read := true; ob_content := "CAB";
     ob_fault := Some TextMode |}.

(** A stream over the demo video that has been closed. *)
Definition demo_closed_stream : pyobject :=
  {| ob_has_seek := true; ob_has_read := true; ob_content := "CAB";
     ob_fault := Some (SeekRaises (ValueError "seek of closed file")) |}.

(** The demo video coming through a pipe, which cannot be rewound. *)
Definition demo_unseekable_stream : pyobject :=
  {| ob_has_seek := true; ob_has_read := true; ob_content := "CAB";
     ob_fault := Some (SeekRaises (UnsupportedOperation "seek")) |}.

(** A file opened for writing only. *)
Definition demo_write_only_stream : pyobject :=
  {| ob_has_seek := true; ob_has_read := true; ob_content := "";
     ob_fault := Some (ReadRaises (UnsupportedOperation "not readable")) |}.

(** Another machine holding the demo video: other files, other
    temporary names, one of them taken. *)
Definition demo_other_world : world :=
  {| w_files := {[ "video.mkv" := "CAB"; "/var/tmp/a" := "x" ]};
     w_dirs := {[ "/var/tmp/b" := ∅ ]};
     w_names := ["/var/tmp/a"; "/var/tmp/b"; "/var/tmp/c"] |}.

(** * Properties *)

(** ** The order on file names *)

Lemma ascii_compare_eq (a b : ascii) : Ascii.compare a b = Eq -> a = b.
Proof. apply Ascii.compare_eq_iff. Qed.

Lemma string_compare_trans (s1 : string) : forall s2 s3,
  String.compare s1 s2 <> Gt -> String.compare s2 s3 <> Gt ->
  String.compare s1 s3 <> Gt.
Proof.
  induction s1 as [|a s1 IH]; intros [|b s2] [|c s3]; simpl; try congruence.
  destruct (Ascii.compare a b) eqn:Hab; try congruence.
  - apply ascii_compare_eq in Hab as ->.
    destruct (Ascii.compare b c) eqn:Hbc; try congruence.
    intros H12 H23. now apply (IH s2 s3).
  - destruct (Ascii.compare b c) eqn:Hbc; try congruence.
    + apply ascii_compare_eq in Hbc as ->. rewrite Hab. congruence.
    + unfold Ascii.compare in *.
      rewrite N.compare_lt_iff in Hab, Hbc.
      assert (Hac : (N_of_ascii a < N_of_ascii c)%N) by lia.
      apply N.compare_lt_iff in Hac. rewrite Hac. congruence.
Qed.

Lemma leb_not_gt (s1 s2 : string) :
  String.leb s1 s2 = true <-> String.compare s1 s2 <> Gt.
Proof. unfold String.leb. destruct (String.compare s1 s2); split; congruence. Qed.

#[global] Instance str_le_trans : Transitive str_le.
Proof.
  intros s1 s2 s3. unfold str_le. rewrite !leb_not_gt.
  apply string_compare_trans.
Qed.

#[global] Instance str_le_antisym : AntiSymm (=) str_le.
Proof. intros s1 s2. apply String.leb_antisym. Qed.

#[global] Instance str_le_total : Total str_le.
Proof. intros s1 s2. apply String.leb_total. Qed.

Lemma sorted_Sorted (l : list string) : Sorted str_le (sorted l).
Proof. apply Sorted_merge_sort, _. Qed.

Lemma sorted_Permutation (l : list string) : sorted l ≡ₚ l.
Proof. apply merge_sort_Permutation. Qed.

(** Sorting forgets the order of its input. *)
Lemma sorted_perm_eq (l1 l2 : list string) : l1 ≡ₚ l2 -> sorted l1 = sorted l2.
Proof.
  intros Hp. apply (Sorted_unique str_le); try apply sorted_Sorted.
  now rewrite !sorted_Permutation.
Qed.

(** ** Enumeration orders *)

Lemma Sorted_on_members {A} (R1 R2 : relation A) (l : list A) :
  (forall a b, a ∈ l -> b ∈ l -> R1 a b -> R2 a b) ->
  Sorted R1 l -> Sorted R2 l.
Proof.
  intros Himp Hs. induction Hs as [|x l Hs IH Hhd]; constructor.
  - apply IH. intros a b Ha Hb. apply Himp; now apply list_elem_of_further.
  - destruct Hhd as [|y l Hxy]; constructor.
    apply Himp; [apply list_elem_of_here| |exact Hxy].
    apply list_elem_of_further, list_elem_of_here.
Qed.

Lemma position_inj (l : list string) (a b : string) :
  a ∈ l -> b ∈ l -> position l a = position l b -> a = b.
Proof.
  induction l as [|x l IH]; intros Ha Hb; [now apply elem_of_nil in Ha|].
  simpl. destruct (String.eqb_spec x a) as [<-|Hxa],
                  (String.eqb_spec x b) as [<-|Hxb]; try congruence.
  intros [= Hp]. apply IH; [| |exact Hp].
  - apply elem_of_cons in Ha as [Ha|Ha]; [congruence|exact Ha].
  - apply elem_of_cons in Hb as [Hb|Hb]; [congruence|exact Hb].
Qed.

Lemma position_sorted (l : list string) :
  NoDup l -> Sorted (fun a b => position l a <= position l b) l.
Proof.
  induction 1 as [|x l Hx Hnd IH]; constructor.
  - apply (Sorted_on_members (fun a b => position l a <= position l b));
      [|exact IH].
    intros a b Ha Hb Hab. simpl.
    destruct (String.eqb_spec x a) as [->|_]; [contradiction|].
    destruct (String.eqb_spec x b) as [->|_]; [contradiction|]. lia.
  - destruct l as [|y l]; constructor. simpl.
    rewrite String.eqb_refl. lia.
Qed.

(** Every order in which a directory can be enumerated is the order of
    some rank: the environments range over all listings. *)
Lemma listdir_any_order {R} (env : environment R) (d : string)
    (entries : gmap string bytes) (w : world) (l : list string) :
  w_dirs w !! d = Some entries ->
  l ≡ₚ (map_to_list entries).*1 ->
  res (os_listdir (set_listdir_rank (position l) env) d w) = Ok l.
Proof.
  intros Hd Hp. unfold os_listdir. rewrite Hd. simpl. f_equal.
  assert (Hnd : NoDup l) by (rewrite Hp; apply NoDup_fst_map_to_list).
  set (R' := rank_le (set_listdir_rank (position l) env)).
  assert (Htrans : Transitive R') by (intros a b c; unfold R', rank_le; simpl; lia).
  assert (Htotal : Total R') by (intros a b; unfold R', rank_le; simpl; lia).
  apply (Sorted_unique_strong R').
  - intros a b Ha Hb Hab Hba. rewrite merge_sort_Permutation, <- Hp in Ha.
    apply (position_inj l); [assumption..|].
    unfold R', rank_le in Hab, Hba. simpl in Hab, Hba. lia.
  - apply Sorted_merge_sort, _.
  - apply position_sorted, Hnd.
  - now rewrite merge_sort_Permutation.
Qed.

(** ** Temporary names *)

Lemma first_unused_fresh (w : world) (names : list string) p rest :
  first_unused w names = Some (p, rest) ->
  w_files w !! p = None /\ w_dirs w !! p = None.
Proof.
  induction names as [|n names IH]; simpl; [discriminate|].
  destruct (path_exists w n) eqn:He; [exact IH|].
  intros [= <- <-]. unfold path_exists in He.
  destruct (w_files w !! n), (w_dirs w !! n); try discriminate. auto.
Qed.

Lemma first_unused_ext (w w' : world) (names : list string) :
  w_files w' = w_files w -> w_dirs w' = w_dirs w ->
  first_unused w' names = first_unused w names.
Proof.
  intros Hf Hd. induction names as [|n names IH]; simpl; [reflexivity|].
  unfold path_exists. rewrite Hf, Hd, IH. reflexivity.
Qed.

(** ** Reading the frames back *)

Lemma for_each_cons {A B} (f : A -> M B) (x : A) (l : list A) :
  for_each f (x :: l) =
  bind (f x) (fun y => bind (for_each f l) (fun ys => ret (y :: ys))).
Proof. reflexivity. Qed.

Lemma open_read_ok (d n : string) (entries : gmap string bytes) c (w : world) :
  w_dirs w !! d = Some entries -> entries !! n = Some c ->
  open_read d n w = Run (Ok c) w [EvOpen (os_path_join d n)].
Proof. intros Hd Hc. unfold open_read. now rewrite Hd, Hc. Qed.

Lemma for_each_open_read (d : string) (entries : gmap string bytes)
    (names : list string) (w : world) :
  w_dirs w !! d = Some entries ->
  Forall (fun n => is_Some (entries !! n)) names ->
  for_each (open_read d) names w =
    Run (Ok ((fun n => default EmptyString (entries !! n)) <$> names)) w
        ((fun n => EvOpen (os_path_join d n)) <$> names).
Proof.
  intros Hd. induction 1 as [|n names [c Hc] _ IH]; [reflexivity|].
  rewrite for_each_cons. cbv beta delta [bind] zeta.
  rewrite (open_read_ok d n entries c w Hd Hc). simpl.
  rewrite IH. simpl.
  rewrite Hc, app_nil_r. reflexivity.
Qed.

Lemma open_read_post (d n : string) (w : world) : post (open_read d n w) = w.
Proof.
  unfold open_read. destruct (w_dirs w !! d) as [entries|]; [|reflexivity].
  destruct (entries !! n); reflexivity.
Qed.

Lemma open_read_events (d n : string) (w : world) :
  events (open_read d n w) = [EvOpen (os_path_join d n)].
Proof.
  unfold open_read. destruct (w_dirs w !! d) as [entries|]; [|reflexivity].
  destruct (entries !! n); reflexivity.
Qed.

Lemma for_each_open_read_post (d : string) (names : list string) (w : world) :
  post (for_each (open_read d) names w) = w.
Proof.
  induction names as [|n names IH]; [reflexivity|].
  rewrite for_each_cons. cbv beta delta [bind] zeta.
  destruct (res (open_read d n w)); simpl; rewrite open_read_post; [|reflexivity].
  destruct (res (for_each (open_read d) names w)); simpl; exact IH.
Qed.

Lemma for_each_open_read_events (d : string) (names : list string) (w : world) :
  Forall (fun e => exists p, e = EvOpen p) (events (for_each (open_read d) names w)).
Proof.
  induction names as [|n names IH]; [constructor|].
  rewrite for_each_cons. cbv beta delta [bind] zeta.
  destruct (res (open_read d n w)); simpl; rewrite open_read_events, ?open_read_post;
    [|repeat constructor; eauto].
  constructor; [eauto|].
  destruct (res (for_each (open_read d) names w)); simpl;
    rewrite ?app_nil_r; exact IH.
Qed.

(** ** One decoder invocation *)

Section Runs.

Context {R : Type}.
Variable env : environment R.


Lemma str_format_error_template (a b c d : string) :
  str_format error_template [a; b; c; d] =
  Some ("ffmpeg returned error code " +:+ a +:+ ", command=" +:+ b +:+ newline +:+
        "stdout=" +:+ c +:+ newline +:+ "stderr=" +:+ d +:+ newline).
Proof. reflexivity. Qed.

Lemma names_present (entries : gmap string bytes) (l : list string) :
  l ≡ₚ (map_to_list entries).*1 ->
  Forall (fun n => is_Some (entries !! n)) l.
Proof.
  intros Hp. apply Forall_forall. intros n Hn.
  rewrite Hp in Hn. apply list_elem_of_fmap in Hn as [[n' c] [-> Hin]].
  apply elem_of_map_to_list in Hin. simpl. eauto.
Qed.

(** The [try] block followed by the [finally] clause, in a world where
    the output directory exists and is empty. *)
Lemma stdin_text_inv (stdin : option pydata) (text : string) :
  stdin_text stdin = Some text -> stdin = Some (PyText text).
Proof. destruct stdin as [[b|t]|]; simpl; congruence. Qed.

(** [Popen] and [communicate] when there is nothing or there are bytes to
    write. *)
Lemma Popen_communicate_bytes (argv : list string) (stdin : option pydata)
    (d : string) (w : world) :
  stdin_text stdin = None ->
  Popen_communicate env argv stdin d w =
  match env_decoder env argv (stdin_bytes stdin) (w_files w) with
  | SpawnError msg =>
    Run (Raise (OSError msg)) w [EvPopen argv (stdin_bytes stdin)]
  | Exited rc out err written =>
    Run (Ok (rc, out, err))
        (set_dirs (alter (fun old => written ∪ old) d (w_dirs w)) w)
        [EvPopen argv (stdin_bytes stdin)]
  end.
Proof. destruct stdin as [[b|t]|]; [reflexivity|discriminate|reflexivity]. Qed.

Lemma decode_try (argv : list string) (stdin : option pydata) (d : string)
    (w : world) :
  w_dirs w !! d = Some ∅ ->
  let r := try_finally (run_and_collect env argv stdin d) (shutil_rmtree d) w in
  post r = set_dirs (delete d (w_dirs w)) w /\
  match stdin_text stdin with
  | Some text =>
    res r = Raise (match env_decoder env argv None (w_files w) with
                   | SpawnError msg => OSError msg
                   | Exited _ _ _ _ => TypeError bytes_required
                   end) /\
    events r = [EvPopenText argv text; EvRmtree d]
  | None =>
    match env_decoder env argv (stdin_bytes stdin) (w_files w) with
    | SpawnError msg =>
      res r = Raise (OSError msg) /\
      events r = [EvPopen argv (stdin_bytes stdin); EvRmtree d]
    | Exited rc out err written =>
      if Z.eqb rc 0 then
        res r = Ok (frames_by_name written) /\
        events r = [EvPopen argv (stdin_bytes stdin); EvListdir d] ++
                   ((fun n => EvOpen (os_path_join d n)) <$>
                      sorted (map_to_list written).*1) ++ [EvRmtree d]
      else
        res r = Raise (ValueError (error_message env rc argv out err)) /\
        events r = [EvPopen argv (stdin_bytes stdin); EvRmtree d]
    end
  end.
Proof.
  intros Hd. unfold try_finally, run_and_collect.
  cbv beta delta [bind] zeta.
  destruct (stdin_text stdin) as [text|] eqn:Ht.
  { apply stdin_text_inv in Ht as ->. unfold Popen_communicate.
    destruct (env_decoder env argv None (w_files w)); simpl;
      unfold shutil_rmtree; rewrite Hd; simpl; auto. }
  rewrite (Popen_communicate_bytes argv stdin d w Ht).
  generalize (stdin_bytes stdin). intros sb.
  destruct (env_decoder env argv sb (w_files w)) as [msg|rc out err written];
    simpl.
  - unfold shutil_rmtree. rewrite Hd. simpl. auto.
  - destruct (Z.eqb rc 0) eqn:Hrc; simpl.
    + set (w3 := set_dirs (alter (fun old => written ∪ old) d (w_dirs w)) w).
      assert (Hd3 : w_dirs w3 !! d = Some written).
      { simpl. rewrite lookup_alter_eq, Hd. simpl. now rewrite (right_id_L ∅ (∪)). }
      unfold os_listdir. rewrite Hd3. simpl.
      rewrite (sorted_perm_eq _ (map_to_list written).*1)
        by apply merge_sort_Permutation.
      rewrite (for_each_open_read d written _ w3 Hd3)
        by (apply names_present, sorted_Permutation).
      simpl. unfold shutil_rmtree. rewrite Hd3. simpl.
      rewrite delete_alter_eq. rewrite app_nil_r. auto.
    + unfold shutil_rmtree. simpl. rewrite lookup_alter_eq, Hd. simpl.
      rewrite delete_alter_eq. auto.
Qed.

(** Lines 101 to 107, case by case: a string; an object without [seek]
    or [read]; a file object whose [seek] or [read] raises; a file
    object in text mode; a file object in binary mode. *)
Lemma ffmpeg_input_spec (v : pyvalue) (w : world) :
  let r := ffmpeg_input v w in
  post r = w /\ Forall quiet (events r) /\
  match v with
  | PyStr s => res r = Ok ([ffmpeg_path; "-i"; s], None) /\ events r = []
  | PyObj o =>
    if readable_stream o then
      match ob_fault o with
      | Some (SeekRaises e) => res r = Raise e /\ events r = []
      | Some (ReadRaises e) => res r = Raise e /\ events r = [EvSeek]
      | Some TextMode =>
        res r = Ok ([ffmpeg_path; "-i"; "pipe:0"],
                    Some (PyText (ob_content o))) /\
        events r = [EvSeek; EvRead]
      | None =>
        res r = Ok ([ffmpeg_path; "-i"; "pipe:0"],
                    Some (PyBytes (ob_content o))) /\
        events r = [EvSeek; EvRead]
      end
    else exists attr, res r = Raise (AttributeError attr)
  | PyArray _ => res r = Raise (AttributeError "seek")
  end.
Proof.
  destruct v as [a|s|o]; simpl.
  - repeat split; constructor.
  - repeat split; constructor.
  - unfold obj_seek, obj_read, file_fault, readable_stream.
    cbv beta delta [bind] zeta.
    destruct (ob_has_seek o), (ob_has_read o); simpl;
      try (repeat split; eauto; repeat constructor; fail).
    destruct (ob_fault o) as [[e|e|]|]; simpl;
      repeat split; repeat constructor.
Qed.

(** The whole of [_ffmpeg_decode], case by case. *)
Lemma ffmpeg_decode_spec (self : Video) (v : pyvalue) (w : world) :
  let r0 := ffmpeg_input v w in
  let r := _ffmpeg_decode env self v w in
  w_files (post r) = w_files w /\ w_dirs (post r) = w_dirs w /\
  match res r0 with
  | Raise e => res r = Raise e /\ events r = events r0 /\ post r = w
  | Ok (args0, stdin) =>
    match first_unused w (w_names w) with
    | None => res r = Raise FileExistsError /\ events r = events r0
    | Some (d, rest) =>
      let argv := (args0 ++ _extra_ffmpeg_args self) ++
                  [os_path_join d ("%010d." +:+ _encoding_format self)] in
      w_names (post r) = rest /\
      match stdin_text stdin with
      | Some text =>
        res r = Raise (match env_decoder env argv None (w_files w) with
                       | SpawnError msg => OSError msg
                       | Exited _ _ _ _ => TypeError bytes_required
                       end) /\
        events r = events r0 ++ [EvMkdtemp d; EvPopenText argv text; EvRmtree d]
      | None =>
        match env_decoder env argv (stdin_bytes stdin) (w_files w) with
        | SpawnError msg =>
          res r = Raise (OSError msg) /\
          events r = events r0 ++
            [EvMkdtemp d; EvPopen argv (stdin_bytes stdin); EvRmtree d]
        | Exited rc out err written =>
          if Z.eqb rc 0 then
            res r = Ok (frames_by_name written) /\
            events r = events r0 ++
              [EvMkdtemp d; EvPopen argv (stdin_bytes stdin); EvListdir d] ++
              ((fun n => EvOpen (os_path_join d n)) <$>
                 sorted (map_to_list written).*1) ++ [EvRmtree d]
          else
            res r = Raise (ValueError (error_message env rc argv out err)) /\
            events r = events r0 ++
              [EvMkdtemp d; EvPopen argv (stdin_bytes stdin); EvRmtree d]
        end
      end
    end
  end.
Proof.
  intros r0 r. subst r. unfold _ffmpeg_decode.
  cbv beta delta [bind] zeta. fold r0.
  destruct (ffmpeg_input_spec v w) as (Hpost & _ & _). fold r0 in Hpost.
  destruct (res r0) as [[args0 stdin]|e] eqn:Hres; simpl;
    [|rewrite Hpost; auto].
  unfold tempfile_mkdtemp. rewrite Hpost.
  destruct (first_unused w (w_names w)) as [[d rest]|] eqn:Hfresh; simpl;
    [|rewrite app_nil_r; auto].
  apply first_unused_fresh in Hfresh as [_ Hnodir].
  set (w2 := set_dirs (<[d:=∅]> (w_dirs w)) (set_names rest w)).
  set (argv := (args0 ++ _extra_ffmpeg_args self) ++
               [os_path_join d ("%010d." +:+ _encoding_format self)]).
  assert (Hd : w_dirs w2 !! d = Some ∅) by apply lookup_insert_eq.
  destruct (decode_try argv stdin d w2 Hd) as [Hp Hcase].
  rewrite Hp. simpl. rewrite delete_insert_id by exact Hnodir.
  repeat split.
  change (w_files w2) with (w_files w) in Hcase.
  destruct (stdin_text stdin) as [text|].
  { destruct Hcase as [-> ->]. auto. }
  destruct (env_decoder env argv (stdin_bytes stdin) (w_files w))
    as [msg|rc out err written].
  - destruct Hcase as [-> ->]. auto.
  - destruct (Z.eqb rc 0); destruct Hcase as [-> ->]; auto.
Qed.

Lemma quiet_opens (d : string) (names : list string) :
  Forall quiet ((fun n => EvOpen (os_path_join d n)) <$> names).
Proof. apply Forall_fmap, Forall_forall. intros n _. split; reflexivity. Qed.

Lemma popen_among_quiet (pre tail : list event) (d : string)
    (argv argv' : list string) (stdin stdin' : option bytes) :
  Forall quiet pre -> Forall quiet tail ->
  EvPopen argv stdin ∈ pre ++ EvMkdtemp d :: EvPopen argv' stdin' :: tail ->
  argv = argv' /\ stdin = stdin'.
Proof.
  intros Hpre Htail Hin.
  apply elem_of_app in Hin as [Hin|Hin].
  - apply (proj1 (Forall_forall _ _) Hpre) in Hin as [Hs _]. discriminate.
  - apply elem_of_cons in Hin as [Hin|Hin]; [discriminate|].
    apply elem_of_cons in Hin as [Hin|Hin]; [now inversion Hin|].
    apply (proj1 (Forall_forall _ _) Htail) in Hin as [Hs _]. discriminate.
Qed.

Lemma mkdtemp_among_quiet (pre tail : list event) (d d' : string)
    (e : event) :
  Forall quiet pre -> Forall quiet tail -> spawns e = true ->
  EvMkdtemp d' ∈ pre ++ EvMkdtemp d :: e :: tail ++ [EvRmtree d] ->
  d' = d.
Proof.
  intros Hpre Htail He Hin.
  apply elem_of_app in Hin as [Hin|Hin].
  - apply (proj1 (Forall_forall _ _) Hpre) in Hin as [_ Ha]. discriminate.
  - apply elem_of_cons in Hin as [Hin|Hin]; [now inversion Hin|].
    apply elem_of_cons in Hin as [Hin|Hin]; [subst e; discriminate|].
    apply elem_of_app in Hin as [Hin|Hin].
    + apply (proj1 (Forall_forall _ _) Htail) in Hin as [_ Ha]. discriminate.
    + apply list_elem_of_singleton in Hin. discriminate.
Qed.

Lemma no_popen_among_quiet (l : list event) (argv : list string)
    (stdin : option bytes) :
  Forall quiet l -> EvPopen argv stdin ∈ l -> False.
Proof.
  intros Hl Hin. apply (proj1 (Forall_forall _ _) Hl) in Hin as [Hs _].
  discriminate.
Qed.

(** The call as far as the start of the decoder, when the input could be
    prepared and [tempfile] has a name: nothing or bytes for the
    decoder's standard input. *)
Lemma decode_started (self : Video) (v : pyvalue) (w : world)
    (args0 : list string) (stdin : option pydata) (d : string)
    (rest : list string) :
  res (ffmpeg_input v w) = Ok (args0, stdin) ->
  stdin_text stdin = None ->
  first_unused w (w_names w) = Some (d, rest) ->
  let r := _ffmpeg_decode env self v w in
  let argv := (args0 ++ _extra_ffmpeg_args self) ++
              [os_path_join d ("%010d." +:+ _encoding_format self)] in
  exists tail,
    events r = events (ffmpeg_input v w) ++
               EvMkdtemp d :: EvPopen argv (stdin_bytes stdin) :: tail ++
               [EvRmtree d] /\
    Forall quiet tail /\
    match env_decoder env argv (stdin_bytes stdin) (w_files w) with
    | SpawnError msg => res r = Raise (OSError msg) /\ tail = []
    | Exited rc out err written =>
      if Z.eqb rc 0 then
        res r = Ok (frames_by_name written) /\
        tail = EvListdir d :: ((fun n => EvOpen (os_path_join d n)) <$>
                                 sorted (map_to_list written).*1)
      else
        res r = Raise (ValueError (error_message env rc argv out err)) /\
        tail = []
    end.
Proof.
  intros Hr Ht Hfresh r argv. subst r.
  destruct (ffmpeg_decode_spec self v w) as (_ & _ & H).
  rewrite Hr, Hfresh in H. destruct H as [_ H]. cbv zeta in H.
  rewrite Ht in H. fold argv in H.
  destruct (env_decoder env argv (stdin_bytes stdin) (w_files w))
    as [msg|rc out err written].
  - destruct H as [-> ->]. exists []. repeat split. constructor.
  - destruct (Z.eqb rc 0); destruct H as [-> ->].
    + exists (EvListdir d :: ((fun n => EvOpen (os_path_join d n)) <$>
                               sorted (map_to_list written).*1)).
      split; [reflexivity|]. split; [|split; reflexivity].
      constructor; [split; reflexivity|apply quiet_opens].
    + exists []. repeat split. constructor.
Qed.

(** The same, when the input is a file object in text mode. *)
Lemma decode_started_text (self : Video) (v : pyvalue) (w : world)
    (args0 : list string) (stdin : option pydata) (text : string)
    (d : string) (rest : list string) :
  res (ffmpeg_input v w) = Ok (args0, stdin) ->
  stdin_text stdin = Some text ->
  first_unused w (w_names w) = Some (d, rest) ->
  let r := _ffmpeg_decode env self v w in
  let argv := (args0 ++ _extra_ffmpeg_args self) ++
              [os_path_join d ("%010d." +:+ _encoding_format self)] in
  events r = events (ffmpeg_input v w) ++
             [EvMkdtemp d; EvPopenText argv text; EvRmtree d] /\
  res r = Raise (match env_decoder env argv None (w_files w) with
                 | SpawnError msg => OSError msg
                 | Exited _ _ _ _ => TypeError bytes_required
                 end).
Proof.
  intros Hr Ht Hfresh r argv. subst r.
  destruct (ffmpeg_decode_spec self v w) as (_ & _ & H).
  rewrite Hr, Hfresh in H. destruct H as [_ H]. cbv zeta in H.
  rewrite Ht in H. fold argv in H. destruct H as [-> ->]. split; reflexivity.
Qed.

(** The decoder that a call is seen to start is the one the call's
    result comes from. *)
Lemma decode_invoked (self : Video) (v : pyvalue) (w : world)
    (argv : list string) (stdin : option bytes) :
  let r := _ffmpeg_decode env self v w in
  EvPopen argv stdin ∈ events r ->
  exists source d rest,
    first_unused w (w_names w) = Some (d, rest) /\
    argv = ffmpeg_argv self source d /\
    match v with
    | PyStr s => source = s /\ stdin = None
    | PyObj o =>
      readable_stream o = true /\ source = "pipe:0" /\
      stdin = Some (ob_content o)
    | PyArray _ => False
    end /\
    EvMkdtemp d ∈ events r /\
    match env_decoder env argv stdin (w_files w) with
    | SpawnError msg => res r = Raise (OSError msg)
    | Exited rc out err written =>
      if Z.eqb rc 0 then res r = Ok (frames_by_name written)
      else res r = Raise (ValueError (error_message env rc argv out err))
    end.
Proof.
  intros r Hin. subst r.
  destruct (ffmpeg_decode_spec self v w) as (_ & _ & H).
  destruct (ffmpeg_input_spec v w) as (_ & Hq & Hin0).
  set (r0 := ffmpeg_input v w) in *.
  assert (Hok : (exists e, res r0 = Raise e) \/
             exists source stdin0,
               res r0 = Ok ([ffmpeg_path; "-i"; source], stdin0) /\
               (stdin_text stdin0 = None ->
                match v with
                | PyStr s => source = s /\ stdin_bytes stdin0 = None
                | PyObj o =>
                  readable_stream o = true /\ source = "pipe:0" /\
                  stdin_bytes stdin0 = Some (ob_content o)
                | PyArray _ => False
                end)).
  { destruct v as [a|s|o].
    - left. eauto.
    - right. destruct Hin0 as [Hr _]. exists s, None. auto.
    - destruct (readable_stream o); [|left; destruct Hin0 as [attr Hr]; eauto].
      destruct (ob_fault o) as [[e|e|]|]; destruct Hin0 as [Hr _];
        [left; eauto|left; eauto| |]; right.
      + exists "pipe:0", (Some (PyText (ob_content o))).
        split; [exact Hr|]. intros Hx. simpl in Hx. discriminate.
      + exists "pipe:0", (Some (PyBytes (ob_content o))).
        split; [exact Hr|auto]. }
  destruct Hok as [[e Hr]|(source & stdin0 & Hr & Hv)].
  { rewrite Hr in H. destruct H as (_ & Hev & _). rewrite Hev in Hin.
    now apply no_popen_among_quiet in Hin. }
  rewrite Hr in H.
  destruct (first_unused w (w_names w)) as [[d rest]|] eqn:Hfresh.
  2:{ destruct H as [_ Hev]. rewrite Hev in Hin.
      now apply no_popen_among_quiet in Hin. }
  clear H.
  destruct (stdin_text stdin0) as [text|] eqn:Ht.
  { destruct (decode_started_text self v w _ stdin0 text d rest Hr Ht Hfresh)
      as [Hev _].
    rewrite Hev in Hin.
    apply elem_of_app in Hin as [Hin|Hin];
      [now apply no_popen_among_quiet in Hin|].
    repeat (apply elem_of_cons in Hin as [Hin|Hin]; [discriminate|]).
    now apply elem_of_nil in Hin. }
  pose proof (decode_started self v w _ stdin0 d rest Hr Ht Hfresh) as Hs.
  cbv zeta in Hs. destruct Hs as (tail & Hev & Htail & Hres).
  change (([ffmpeg_path; "-i"; source] ++ _extra_ffmpeg_args self) ++
          [os_path_join d ("%010d." +:+ _encoding_format self)])
    with (ffmpeg_argv self source d) in Hev, Hres.
  assert (Hin' := Hin). rewrite Hev in Hin'.
  apply popen_among_quiet in Hin' as [-> ->]; [|exact Hq|].
  2:{ apply Forall_app. split; [exact Htail|]. repeat constructor. }
  exists source, d, rest. split; [reflexivity|]. split; [reflexivity|].
  split; [exact (Hv eq_refl)|]. split.
  { rewrite Hev. apply elem_of_app. right. apply list_elem_of_here. }
  destruct (env_decoder env (ffmpeg_argv self source d) (stdin_bytes stdin0)
              (w_files w)) as [msg|rc out err written]; [tauto|].
  destruct (Z.eqb rc 0); tauto.
Qed.

Lemma no_popen_text_among_quiet (l : list event) (argv : list string)
    (text : string) :
  Forall quiet l -> EvPopenText argv text ∈ l -> False.
Proof.
  intros Hl Hin. apply (proj1 (Forall_forall _ _) Hl) in Hin as [Hs _].
  discriminate.
Qed.

(** A call that is seen to start the decoder and to hand text to
    [communicate] is a call on a file object in text mode; it ends with
    the [TypeError] of [communicate] (or with the [OSError] of [Popen]),
    after the temporary directory has been removed. *)
Lemma decode_invoked_text (self : Video) (v : pyvalue) (w : world)
    (argv : list string) (text : string) :
  let r := _ffmpeg_decode env self v w in
  EvPopenText argv text ∈ events r ->
  exists o d rest,
    v = PyObj o /\ readable_stream o = true /\ ob_fault o = Some TextMode /\
    text = ob_content o /\
    first_unused w (w_names w) = Some (d, rest) /\
    argv = ffmpeg_argv self "pipe:0" d /\
    events r = [EvSeek; EvRead; EvMkdtemp d; EvPopenText argv text; EvRmtree d] /\
    res r = Raise (match env_decoder env argv None (w_files w) with
                   | SpawnError msg => OSError msg
                   | Exited _ _ _ _ => TypeError bytes_required
                   end).
Proof.
  intros r Hin. subst r.
  destruct (ffmpeg_decode_spec self v w) as (_ & _ & H).
  destruct (ffmpeg_input_spec v w) as (_ & Hq & Hin0).
  set (r0 := ffmpeg_input v w) in *.
  destruct (res r0) as [[args0 stdin]|e] eqn:Hr.
  2:{ destruct H as (_ & Hev & _). rewrite Hev in Hin.
      now apply no_popen_text_among_quiet in Hin. }
  destruct (first_unused w (w_names w)) as [[d rest]|] eqn:Hfresh.
  2:{ destruct H as [_ Hev]. rewrite Hev in Hin.
      now apply no_popen_text_among_quiet in Hin. }
  clear H.
  destruct (stdin_text stdin) as [t|] eqn:Ht.
  2:{ pose proof (decode_started self v w args0 stdin d rest Hr Ht Hfresh) as Hs.
      cbv zeta in Hs. destruct Hs as (tail & Hev & Htail & _).
      rewrite Hev in Hin.
      apply elem_of_app in Hin as [Hin|Hin];
        [now apply no_popen_text_among_quiet in Hin|].
      do 2 (apply elem_of_cons in Hin as [Hin|Hin]; [discriminate|]).
      apply elem_of_app in Hin as [Hin|Hin];
        [now apply no_popen_text_among_quiet in Hin|].
      apply list_elem_of_singleton in Hin. discriminate. }
  destruct (decode_started_text self v w args0 stdin t d rest Hr Ht Hfresh)
    as [Hev Hres].
  apply stdin_text_inv in Ht. subst stdin.
  assert (Hv : exists o, v = PyObj o /\ readable_stream o = true /\
                         ob_fault o = Some TextMode /\ t = ob_content o /\
                         args0 = [ffmpeg_path; "-i"; "pipe:0"] /\
                         events r0 = [EvSeek; EvRead]).
  { destruct v as [a|s|o]; [discriminate Hin0|destruct Hin0; discriminate|].
    exists o. destruct (readable_stream o);
      [|destruct Hin0 as [attr Hr']; discriminate].
    destruct (ob_fault o) as [[e|e|]|]; destruct Hin0 as [Hr' Hev0];
      try discriminate.
    injection Hr' as -> ->. auto 7. }
  destruct Hv as (o & -> & Ho & Hfault & -> & -> & Hev0).
  fold r0 in Hev. rewrite Hev0 in Hev. rewrite Hev in Hin.
  change (([ffmpeg_path; "-i"; "pipe:0"] ++ _extra_ffmpeg_args self) ++
          [os_path_join d ("%010d." +:+ _encoding_format self)])
    with (ffmpeg_argv self "pipe:0" d) in Hev, Hres, Hin.
  do 3 (apply elem_of_cons in Hin as [Hin|Hin]; [discriminate|]).
  apply elem_of_cons in Hin as [Hin|Hin].
  2:{ apply list_elem_of_singleton in Hin. discriminate. }
  injection Hin as -> ->.
  exists o, d, rest. repeat split; try assumption.
Qed.

(** [_ffmpeg_decode] on a path. *)
Lemma ffmpeg_decode_path (self : Video) (s : string) (w : world) :
  let r := _ffmpeg_decode env self (PyStr s) w in
  match first_unused w (w_names w) with
  | None => res r = Raise FileExistsError /\ events r = []
  | Some (d, rest) =>
    let argv := ffmpeg_argv self s d in
    match env_decoder env argv None (w_files w) with
    | SpawnError msg =>
      res r = Raise (OSError msg) /\
      events r = [EvMkdtemp d; EvPopen argv None; EvRmtree d]
    | Exited rc out err written =>
      if Z.eqb rc 0 then
        res r = Ok (frames_by_name written) /\
        events r = EvMkdtemp d :: EvPopen argv None :: EvListdir d ::
          ((fun n => EvOpen (os_path_join d n)) <$>
             sorted (map_to_list written).*1) ++ [EvRmtree d]
      else
        res r = Raise (ValueError (error_message env rc argv out err)) /\
        events r = [EvMkdtemp d; EvPopen argv None; EvRmtree d]
    end
  end.
Proof.
  destruct (ffmpeg_decode_spec self (PyStr s) w) as (_ & _ & H).
  cbv zeta. change (res (ffmpeg_input (PyStr s) w))
    with (@Ok (list string * option pydata) ([ffmpeg_path; "-i"; s], None)) in H.
  cbv beta iota zeta delta [stdin_text stdin_bytes] in H.
  destruct (first_unused w (w_names w)) as [[d rest]|]; [|exact H].
  destruct H as [_ H]. exact H.
Qed.

Lemma decode_events_shape (self : Video) (v : pyvalue) (w : world) :
  let r := _ffmpeg_decode env self v w in
  Forall quiet (events r) \/
  exists pre d rest e tail,
    first_unused w (w_names w) = Some (d, rest) /\
    events r = pre ++ EvMkdtemp d :: e :: tail ++ [EvRmtree d] /\
    spawns e = true /\ Forall quiet pre /\ Forall quiet tail.
Proof.
  intros r. subst r.
  destruct (ffmpeg_decode_spec self v w) as (_ & _ & H).
  destruct (ffmpeg_input_spec v w) as (_ & Hq & _).
  set (r0 := ffmpeg_input v w) in *.
  destruct (res r0) as [[args0 stdin]|e] eqn:Hr.
  2:{ left. destruct H as (_ & -> & _). exact Hq. }
  destruct (first_unused w (w_names w)) as [[d rest]|] eqn:Hfresh.
  2:{ left. destruct H as (_ & ->). exact Hq. }
  right. clear H.
  destruct (stdin_text stdin) as [text|] eqn:Ht.
  - destruct (decode_started_text self v w args0 stdin text d rest Hr Ht Hfresh)
      as [Hev _].
    eexists (events r0), d, rest, (EvPopenText _ text), [].
    split; [reflexivity|]. split; [exact Hev|]. repeat split; auto.
  - pose proof (decode_started self v w args0 stdin d rest Hr Ht Hfresh) as Hs.
    cbv zeta in Hs. destruct Hs as (tail & Hev & Htail & _).
    eexists (events r0), d, rest, (EvPopen _ _), tail.
    split; [reflexivity|]. split; [exact Hev|]. repeat split; auto.
Qed.

(** [encode_example] when no local copy is made. *)
Lemma encode_direct (self : Video) (v : pyvalue) (w : world) :
  match v with
  | PyArray _ => False
  | PyStr _ => _copy_locally self = false
  | PyObj _ => True
  end ->
  encode_example env self v w =
  let r := _ffmpeg_decode env self v w in
  match res r with
  | Ok images =>
    Run (env_sequence_encode env (EncFrames images)) (post r)
        (events r ++ [EvSequenceEncode (EncFrames images)])
  | Raise e => Run (Raise e) (post r) (events r)
  end.
Proof.
  intros Hv. unfold encode_example.
  destruct v as [a|s|o]; [contradiction|rewrite Hv|];
    cbv beta delta [bind] zeta;
    destruct (res (_ffmpeg_decode env self _ w)); simpl;
    rewrite ?app_nil_r; reflexivity.
Qed.

(** [encode_example] when a local copy is made: the [try] block. *)
Lemma copy_and_decode_spec (self : Video) (s tmp : string) (w : world) :
  w_files w !! tmp = None -> w_dirs w !! tmp = None ->
  let body := copy_and_decode env self s tmp w in
  match gfile_read env w s with
  | None => body = Run (Raise (NotFoundError s)) w [EvCopy s tmp]
  | Some c =>
    match env_copy_fault env s with
    | Some part =>
      body = Run (Raise (DataLossError s))
                 (set_files (<[tmp:=part]> (w_files w)) w) [EvCopy s tmp]
    | None =>
      let r := _ffmpeg_decode env self (PyStr tmp)
                 (set_files (<[tmp:=c]> (w_files w)) w) in
      res body = match res r with
                 | Ok images => Ok (EncFrames images)
                 | Raise e => Raise e
                 end /\
      post body = post r /\ events body = EvCopy s tmp :: events r
    end
  end.
Proof.
  intros Hf Hd body. subst body. unfold copy_and_decode.
  generalize (_ffmpeg_decode env self (PyStr tmp)). intros dec.
  cbv beta delta [bind] zeta. unfold gfile_Copy, path_exists.
  destruct (gfile_read env w s) as [c|]; [|reflexivity].
  rewrite Hf, Hd. destruct (env_copy_fault env s) as [part|]; [reflexivity|].
  simpl.
  destruct (res (dec (set_files (<[tmp:=c]> (w_files w)) w))); simpl;
    rewrite ?app_nil_r; auto.
Qed.

Lemma encode_copy (self : Video) (s : string) (w : world) tmp rest :
  _copy_locally self = true ->
  first_unused w (w_names w) = Some (tmp, rest) ->
  let body := copy_and_decode env self s tmp (set_names rest w) in
  let fin := os_unlink tmp (post body) in
  encode_example env self (PyStr s) w =
  match res fin with
  | Ok _ =>
    match res body with
    | Ok enc =>
      Run (env_sequence_encode env enc) (post fin)
          (EvMktemp tmp :: (events body ++ events fin) ++ [EvSequenceEncode enc])
    | Raise e =>
      Run (Raise e) (post fin) (EvMktemp tmp :: events body ++ events fin)
    end
  | Raise e =>
    Run (Raise e) (post fin) (EvMktemp tmp :: events body ++ events fin)
  end.
Proof.
  intros Hc Hfresh body fin. subst fin body. unfold encode_example.
  rewrite Hc. generalize (copy_and_decode env self s). intros body.
  cbv beta delta [bind try_finally] zeta.
  unfold tempfile_mktemp. rewrite Hfresh. simpl.
  destruct (res (os_unlink tmp (post (body tmp (set_names rest w)))));
    simpl; [|reflexivity].
  destruct (res (body tmp (set_names rest w))); reflexivity.
Qed.

(** The whole of [encode_example] when a local copy is made. *)
Lemma encode_copy_outcome (self : Video) (s : string) (w : world) tmp rest :
  _copy_locally self = true ->
  first_unused w (w_names w) = Some (tmp, rest) ->
  let body := copy_and_decode env self s tmp (set_names rest w) in
  let r := encode_example env self (PyStr s) w in
  w_files (post r) = w_files w /\ w_dirs (post r) = w_dirs w /\
  w_files (post r) !! tmp = None /\
  EvUnlink tmp ∈ events r /\
  (is_Some (gfile_read env w s) ->
   res r = match res body with
           | Ok enc => env_sequence_encode env enc
           | Raise e => Raise e
           end).
Proof.
  intros Hc Hfresh body r. subst r.
  rewrite (encode_copy self s w tmp rest Hc Hfresh). fold body.
  destruct (first_unused_fresh _ _ _ _ Hfresh) as [Hf Hd].
  pose proof (copy_and_decode_spec self s tmp (set_names rest w) Hf Hd) as Hb.
  fold body in Hb. cbv zeta in Hb.
  change (gfile_read env (set_names rest w) s) with (gfile_read env w s) in Hb.
  destruct (gfile_read env w s) as [c|];
    [destruct (env_copy_fault env s) as [part|]|].
  - rewrite Hb. unfold os_unlink. simpl. rewrite lookup_insert_eq. simpl.
    rewrite delete_insert_id by exact Hf.
    repeat split; try assumption.
    rewrite !elem_of_cons. auto.
  - destruct Hb as (Hres & Hpost & _).
    destruct (ffmpeg_decode_spec self (PyStr tmp)
                (set_files (<[tmp:=c]> (w_files (set_names rest w)))
                           (set_names rest w)))
      as (Hf2 & Hd2 & _).
    rewrite <- Hpost in Hf2, Hd2. simpl in Hf2, Hd2.
    assert (Hlook : w_files (post body) !! tmp = Some c)
      by (rewrite Hf2; apply lookup_insert_eq).
    unfold os_unlink. rewrite Hlook. simpl.
    assert (Hfiles : delete tmp (w_files (post body)) = w_files w)
      by (rewrite Hf2; apply delete_insert_id, Hf).
    destruct (res body) as [enc|e]; simpl; rewrite Hfiles, Hd2;
      repeat split; try assumption;
      rewrite ?elem_of_cons, ?elem_of_app, ?elem_of_cons; auto.
  - rewrite Hb. unfold os_unlink. simpl. rewrite Hf. simpl.
    repeat split; try assumption.
    + rewrite !elem_of_cons. auto.
    + intros [c Hc']. discriminate.
Qed.

End Runs.

Example demo_decode_path :
  res (_ffmpeg_decode Demo.env Demo.video (PyStr "video.mkv") Demo.world0)
  = Ok ["C"; "A"; "B"].
Proof. vm_compute. reflexivity. Qed.

Example demo_decode_stream :
  res (_ffmpeg_decode Demo.env Demo.video (PyObj Demo.stream) Demo.world0)
  = Ok ["Q"; "R"].
Proof. vm_compute. reflexivity. Qed.

(** The demo video opened in text mode: the decoder is started, and
    [communicate] raises; the same bytes are decoded from the path and
    from a stream in binary mode. *)
Example demo_decode_text_stream :
  _ffmpeg_decode Demo.env Demo.video (PyObj demo_text_stream) Demo.world0
  = Run (Raise (TypeError "a bytes-like object is required, not 'str'"))
        (set_names ["/tmp/tmp2"; "/tmp/tmp3"] Demo.world0)
        [EvSeek; EvRead; EvMkdtemp "/tmp/tmp1";
         EvPopenText ["ffmpeg"; "-i"; "pipe:0"; "-r"; "1"; "/tmp/tmp1/%010d.png"]
                     "CAB";
         EvRmtree "/tmp/tmp1"] /\
  res (_ffmpeg_decode Demo.env Demo.video (PyObj demo_video_stream) Demo.world0)
  = Ok ["C"; "A"; "B"].
Proof. vm_compute. split; reflexivity. Qed.

(** A closed stream and a pipe fail at [seek(0)], a file opened for
    writing at [read()]: before anything else is done. *)
Example demo_decode_faulty_streams :
  _ffmpeg_decode Demo.env Demo.video (PyObj demo_closed_stream) Demo.world0
  = Run (Raise (ValueError "seek of closed file")) Demo.world0 [] /\
  _ffmpeg_decode Demo.env Demo.video (PyObj demo_unseekable_stream) Demo.world0
  = Run (Raise (UnsupportedOperation "seek")) Demo.world0 [] /\
  _ffmpeg_decode Demo.env Demo.video (PyObj demo_write_only_stream) Demo.world0
  = Run (Raise (UnsupportedOperation "not readable")) Demo.world0 [EvSeek].
Proof. vm_compute. repeat split. Qed.

Example demo_decode_events :
  events (_ffmpeg_decode Demo.env Demo.video (PyStr "video.mkv") Demo.world0)
  = [EvMkdtemp "/tmp/tmp1"; EvPopen Demo.argv0 None; EvListdir "/tmp/tmp1";
     EvOpen "/tmp/tmp1/0000000001.png"; EvOpen "/tmp/tmp1/0000000002.png";
     EvOpen "/tmp/tmp1/0000000003.png"; EvRmtree "/tmp/tmp1"].
Proof. vm_compute. reflexivity. Qed.

(** A copy that breaks half-way: its error reaches the caller, and the
    partial temporary file has been removed. *)
Example demo_broken_copy :
  res (encode_example Demo.env Demo.video_copy (PyStr "broken.mkv") Demo.world0)
  = Raise (DataLossError "broken.mkv") /\
  w_files (post (encode_example Demo.env Demo.video_copy (PyStr "broken.mkv")
                   Demo.world0)) = w_files Demo.world0.
Proof. vm_compute. split; reflexivity. Qed.

(** ** The claims *)

Section Claims.

Context {R : Type}.
Variable env : environment R.

(** C1 (as amended): when the decoder exits with status zero and has left
    no file in the output directory, [_ffmpeg_decode] returns the empty
    list of frames; no error is raised. *)
Theorem decode_no_frames_returns_empty (self : Video) (v : pyvalue) (w : world)
    (argv : list string) (stdin : option bytes) (out err : bytes) :
  EvPopen argv stdin ∈ events (_ffmpeg_decode env self v w) ->
  env_decoder env argv stdin (w_files w) = Exited 0 out err ∅ ->
  res (_ffmpeg_decode env self v w) = Ok [] /\
  is_raise (res (_ffmpeg_decode env self v w)) = false.
Proof.
  intros Hin Hdec.
  apply decode_invoked in Hin as (source & d & rest & _ & _ & _ & _ & Hres).
  rewrite Hdec in Hres. simpl in Hres. rewrite Hres.
  unfold frames_by_name. rewrite map_to_list_empty. split; reflexivity.
Qed.

(** C4: once the decoder has run, [_ffmpeg_decode] raises exactly when the
    exit status is not zero, and the error then raised is a [ValueError]
    whose message holds the exit code, the argument vector joined by
    spaces, the captured standard output and the captured standard error. *)
Theorem decode_raises_iff_nonzero (self : Video) (v : pyvalue) (w : world)
    (argv : list string) (stdin : option bytes) (rc : Z) (out err : bytes)
    (written : gmap string bytes) :
  EvPopen argv stdin ∈ events (_ffmpeg_decode env self v w) ->
  env_decoder env argv stdin (w_files w) = Exited rc out err written ->
  (is_raise (res (_ffmpeg_decode env self v w)) = true <-> rc <> 0%Z) /\
  (rc <> 0%Z ->
   res (_ffmpeg_decode env self v w) =
   Raise (ValueError
     ("ffmpeg returned error code " +:+ str_of_int rc +:+
      ", command=" +:+ str_join " " argv +:+ newline +:+
      "stdout=" +:+ env_str_bytes env out +:+ newline +:+
      "stderr=" +:+ env_str_bytes env err +:+ newline))).
Proof.
  intros Hin Hdec.
  apply decode_invoked in Hin as (source & d & rest & _ & _ & _ & _ & Hres).
  rewrite Hdec in Hres.
  destruct (Z.eqb_spec rc 0) as [->|Hrc]; rewrite Hres; simpl.
  - split; [split; [discriminate|congruence]|congruence].
  - split; [tauto|]. intros _. reflexivity.
Qed.

(** C5: the argument vector given to the decoder is the binary, [-i], the
    source, the configured extra arguments in order, and the output
    pattern; the source is the path itself for a string and [pipe:0] for
    a stream, and the pattern is the new temporary directory joined with
    [%010d.] and the encoding format.

    First, the decoder is started with that vector: when [tempfile] has
    a name [d] to offer, a call on a string makes the directory [d] and
    starts the decoder on the string, with nothing on its standard
    input; a call on a file object rewinds it, reads it, makes [d] and
    starts the decoder on [pipe:0], with the bytes read on its standard
    input (for a file in text mode, with the text read handed to
    [communicate]); a call on an array, or on a file object whose [seek]
    or [read] raises, starts nothing.  Then, every start of the decoder
    in a call has that vector, with [d] a directory that the call has
    made and that did not exist before. *)
Theorem decoder_argument_vector (self : Video) (v : pyvalue) (w : world) :
  let r := _ffmpeg_decode env self v w in
  let argv source d :=
    ["ffmpeg"; "-i"; source] ++ _extra_ffmpeg_args self ++
    [os_path_join d ("%010d." +:+ _encoding_format self)] in
  (forall d rest,
     first_unused w (w_names w) = Some (d, rest) ->
     match v with
     | PyStr s =>
       exists tail, events r = EvMkdtemp d :: EvPopen (argv s d) None :: tail
     | PyObj o =>
       readable_stream o = true ->
       match ob_fault o with
       | None =>
         exists tail,
           events r = EvSeek :: EvRead :: EvMkdtemp d ::
                      EvPopen (argv "pipe:0" d) (Some (ob_content o)) :: tail
       | Some TextMode =>
         exists tail,
           events r = EvSeek :: EvRead :: EvMkdtemp d ::
                      EvPopenText (argv "pipe:0" d) (ob_content o) :: tail
       | Some (SeekRaises _) | Some (ReadRaises _) => Forall quiet (events r)
       end
     | PyArray _ => Forall quiet (events r)
     end) /\
  (forall argv' stdin,
     EvPopen argv' stdin ∈ events r ->
     exists source d,
       argv' = argv source d /\
       EvMkdtemp d ∈ events r /\
       path_exists w d = false /\
       match v with
       | PyStr s => source = s /\ stdin = None
       | PyObj o => source = "pipe:0" /\ stdin = Some (ob_content o)
       | PyArray _ => False
       end) /\
  (forall argv' text,
     EvPopenText argv' text ∈ events r ->
     exists d,
       argv' = argv "pipe:0" d /\
       EvMkdtemp d ∈ events r /\
       path_exists w d = false /\
       match v with
       | PyObj o => text = ob_content o
       | PyStr _ | PyArray _ => False
       end).
Proof.
  intros r argv. subst r.
  assert (Hnew : forall d rest, first_unused w (w_names w) = Some (d, rest) ->
                                path_exists w d = false).
  { intros d rest Hfresh. apply first_unused_fresh in Hfresh as [Hf Hdir].
    unfold path_exists. now rewrite Hf, Hdir. }
  split; [|split].
  - intros d rest Hfresh.
    destruct (ffmpeg_input_spec v w) as (_ & Hq & Hin0).
    destruct v as [a|s|o].
    + destruct (ffmpeg_decode_spec env self (PyArray a) w) as (_ & _ & H).
      rewrite Hin0 in H. destruct H as (_ & -> & _). exact Hq.
    + destruct Hin0 as [Hr Hev0].
      pose proof (decode_started env self (PyStr s) w _ None d rest Hr eq_refl
                    Hfresh) as Hs.
      cbv zeta in Hs. destruct Hs as (tail & Hev & _).
      rewrite Hev0 in Hev. rewrite Hev. simpl. eauto.
    + intros Ho. rewrite Ho in Hin0.
      destruct (ob_fault o) as [[e|e|]|]; destruct Hin0 as [Hr Hev0].
      * destruct (ffmpeg_decode_spec env self (PyObj o) w) as (_ & _ & H).
        rewrite Hr in H. destruct H as (_ & -> & _). exact Hq.
      * destruct (ffmpeg_decode_spec env self (PyObj o) w) as (_ & _ & H).
        rewrite Hr in H. destruct H as (_ & -> & _). exact Hq.
      * destruct (decode_started_text env self (PyObj o) w _ _ (ob_content o)
                    d rest Hr eq_refl Hfresh) as [Hev _].
        rewrite Hev0 in Hev. rewrite Hev. simpl. eauto.
      * pose proof (decode_started env self (PyObj o) w _ _ d rest Hr eq_refl
                      Hfresh) as Hs.
        cbv zeta in Hs. destruct Hs as (tail & Hev & _).
        rewrite Hev0 in Hev. rewrite Hev. simpl. eauto.
  - intros argv' stdin Hin.
    apply decode_invoked in Hin
      as (source & d & rest & Hfresh & -> & Hv & Hd & _).
    exists source, d. split; [reflexivity|]. split; [exact Hd|].
    split; [exact (Hnew d rest Hfresh)|]. destruct v; tauto.
  - intros argv' text Hin.
    apply decode_invoked_text in Hin
      as (o & d & rest & -> & _ & _ & -> & Hfresh & -> & Hev & _).
    exists d. split; [reflexivity|]. split.
    + rewrite Hev. do 2 apply list_elem_of_further. apply list_elem_of_here.
    + split; [exact (Hnew d rest Hfresh)|reflexivity].
Qed.

(** C6: whatever the input and however the call ends, [_ffmpeg_decode]
    leaves the directories and the files as it found them: the
    temporary directory it made has been removed by [shutil.rmtree]. *)
Theorem decode_leaves_no_temp_dir (self : Video) (v : pyvalue) (w : world) :
  let r := _ffmpeg_decode env self v w in
  w_dirs (post r) = w_dirs w /\ w_files (post r) = w_files w /\
  forall d, EvMkdtemp d ∈ events r ->
    EvRmtree d ∈ events r /\ w_dirs (post r) !! d = None.
Proof.
  intros r. subst r.
  destruct (ffmpeg_decode_spec env self v w) as (Hf & Hd & _).
  split; [exact Hd|]. split; [exact Hf|]. intros d Hin.
  destruct (decode_events_shape env self v w)
    as [Hq|(pre & d' & rest & e & tail & Hfresh & Hev & He & Hpre & Htail)].
  - apply (proj1 (Forall_forall _ _) Hq) in Hin as [_ Ha]. discriminate.
  - rewrite Hev in Hin |- *.
    apply mkdtemp_among_quiet in Hin as ->; [|assumption..]. split.
    + rewrite elem_of_app, !elem_of_cons, elem_of_app, list_elem_of_singleton.
      auto.
    + rewrite Hd. now apply first_unused_fresh in Hfresh as [_ ?].
Qed.

(** C7: after a successful decoder run the frames returned are the
    contents of the files of the output directory, taken by ascending
    file name; the result of the call is the same whatever the order in
    which [os.listdir] enumerates the directory. *)
Theorem frames_sorted_by_name (self : Video) (v : pyvalue) (w : world) :
  (forall rank,
     res (_ffmpeg_decode (set_listdir_rank rank env) self v w) =
     res (_ffmpeg_decode env self v w)) /\
  (forall argv stdin out err written,
     EvPopen argv stdin ∈ events (_ffmpeg_decode env self v w) ->
     env_decoder env argv stdin (w_files w) = Exited 0 out err written ->
     exists names images,
       res (_ffmpeg_decode env self v w) = Ok images /\
       names ≡ₚ (map_to_list written).*1 /\
       Sorted str_le names /\ NoDup names /\
       Forall2 (fun n c => written !! n = Some c) names images).
Proof.
  split.
  - intros rank.
    destruct (ffmpeg_decode_spec (set_listdir_rank rank env) self v w)
      as (_ & _ & H1).
    destruct (ffmpeg_decode_spec env self v w) as (_ & _ & H2).
    simpl in H1.
    destruct (res (ffmpeg_input v w)) as [[args0 stdin]|e].
    2:{ destruct H1 as [-> _], H2 as [-> _]. reflexivity. }
    destruct (first_unused w (w_names w)) as [[d rest]|].
    2:{ destruct H1 as [-> _], H2 as [-> _]. reflexivity. }
    destruct H1 as [_ H1], H2 as [_ H2]. simpl in H2.
    destruct (stdin_text stdin) as [text|].
    { destruct H1 as [-> _], H2 as [-> _]. reflexivity. }
    destruct (env_decoder env _ (stdin_bytes stdin) (w_files w))
      as [msg|rc out err written].
    + destruct H1 as [-> _], H2 as [-> _]. reflexivity.
    + destruct (Z.eqb rc 0); destruct H1 as [-> _], H2 as [-> _]; reflexivity.
  - intros argv stdin out err written Hin Hdec.
    apply decode_invoked in Hin as (source & d & rest & _ & _ & _ & _ & Hres).
    rewrite Hdec in Hres. simpl in Hres.
    exists (sorted (map_to_list written).*1), (frames_by_name written).
    split; [exact Hres|]. split; [apply sorted_Permutation|].
    split; [apply sorted_Sorted|]. split.
    + rewrite sorted_Permutation. apply NoDup_fst_map_to_list.
    + unfold frames_by_name. apply Forall2_fmap_r, Forall_Forall2_diag.
      eapply Forall_impl; [apply names_present, sorted_Permutation|].
      intros n [c Hc]. simpl. rewrite Hc. reflexivity.
Qed.

(** C8: an array is handed unchanged to [Sequence.encode_example]; the
    world is untouched, no subprocess is started and no temporary name,
    file or directory is made. *)
Theorem encode_array_passthrough (self : Video) (a : ndarray) (w : world) :
  encode_example env self (PyArray a) w =
    Run (env_sequence_encode env (EncArray a)) w [EvSequenceEncode (EncArray a)] /\
  Forall quiet (events (encode_example env self (PyArray a) w)).
Proof. split; [reflexivity|]. repeat constructor. Qed.

(** C2: an input that is neither an array, nor a string, nor an object
    with both [seek] and [read] makes [encode_example] raise an
    [AttributeError]; the world is untouched, no subprocess has been
    started and no temporary name, file or directory has been made. *)
Theorem encode_rejects_non_stream (self : Video) (o : pyobject) (w : world) :
  readable_stream o = false ->
  let r := encode_example env self (PyObj o) w in
  (exists attr, res r = Raise (AttributeError attr)) /\
  post r = w /\ Forall quiet (events r).
Proof.
  intros Ho r. subst r. rewrite encode_direct by exact I.
  destruct (ffmpeg_decode_spec env self (PyObj o) w) as (_ & _ & H).
  destruct (ffmpeg_input_spec (PyObj o) w) as (_ & Hq & Hin).
  rewrite Ho in Hin. destruct Hin as [attr Hr]. rewrite Hr in H.
  destruct H as (Hres & Hev & Hpost). simpl. rewrite Hres. simpl.
  rewrite Hev, Hpost. eauto.
Qed.

(** C10: with [copy_locally] off, a string goes to the decoder as it is:
    the first effects of [encode_example] are [mkdtemp] and the start of
    the decoder on that very string, whether or not a file of that name
    exists; when the decoder then exits with a nonzero status the call
    raises the decode error holding that status; and decoding a string
    never raises an [AttributeError]. *)
Theorem path_not_checked (self : Video) (s : string) (w : world) d rest :
  _copy_locally self = false ->
  first_unused w (w_names w) = Some (d, rest) ->
  let r := encode_example env self (PyStr s) w in
  let argv := ["ffmpeg"; "-i"; s] ++ _extra_ffmpeg_args self ++
              [os_path_join d ("%010d." +:+ _encoding_format self)] in
  (exists tail, events r = EvMkdtemp d :: EvPopen argv None :: tail) /\
  (forall rc out err written,
     env_decoder env argv None (w_files w) = Exited rc out err written ->
     rc <> 0%Z ->
     res r = Raise (ValueError
       ("ffmpeg returned error code " +:+ str_of_int rc +:+
        ", command=" +:+ str_join " " argv +:+ newline +:+
        "stdout=" +:+ env_str_bytes env out +:+ newline +:+
        "stderr=" +:+ env_str_bytes env err +:+ newline)) /\
     forall attr, res r <> Raise (AttributeError attr)) /\
  (forall attr,
     res (_ffmpeg_decode env self (PyStr s) w) <> Raise (AttributeError attr)).
Proof.
  intros Hc Hfresh r argv. subst r.
  rewrite (encode_direct env self (PyStr s) w Hc).
  pose proof (ffmpeg_decode_path env self s w) as H. cbv zeta in H.
  rewrite Hfresh in H. change (ffmpeg_argv self s d) with argv in H.
  cbv zeta. split.
  - destruct (env_decoder env argv None (w_files w)) as [msg|rc out err written].
    + destruct H as [-> ->]. simpl. eauto.
    + destruct (Z.eqb rc 0); destruct H as [-> ->]; simpl; eauto.
  - split.
    + intros rc out err written Hdec Hrc. rewrite Hdec in H.
      destruct (Z.eqb_spec rc 0) as [?|_]; [contradiction|].
      destruct H as [-> _]. simpl. split; [reflexivity|discriminate].
    + intros attr.
      destruct (env_decoder env argv None (w_files w)) as [msg|rc out err written].
      * destruct H as [-> _]. discriminate.
      * destruct (Z.eqb rc 0); destruct H as [-> _]; discriminate.
Qed.

(** C3 (as amended): with [copy_locally] on, [os.unlink] is attempted on
    the temporary path however the copy and the decoding end, and after
    the call the temporary file does not exist: the files and
    directories are those from before the call.  When the source could
    be copied, the outcome of the copy-and-decode step is the outcome of
    the call: its error is the error reported. *)
Theorem local_copy_removed (self : Video) (s : string) (w : world) tmp rest :
  _copy_locally self = true ->
  first_unused w (w_names w) = Some (tmp, rest) ->
  let body := copy_and_decode env self s tmp (set_names rest w) in
  let r := encode_example env self (PyStr s) w in
  w_files (post r) = w_files w /\ w_dirs (post r) = w_dirs w /\
  w_files (post r) !! tmp = None /\
  EvUnlink tmp ∈ events r /\
  (is_Some (gfile_read env w s) ->
   res r = match res body with
           | Ok enc => env_sequence_encode env enc
           | Raise e => Raise e
           end).
Proof. exact (encode_copy_outcome env self s w tmp rest). Qed.

(** C9 (as amended): for a path that names a local file, when the copy
    succeeds, temporary names are available and the decoder's exit status
    and frames depend only on the content of its input file,
    [encode_example] with
    [copy_locally] on ends as it does with [copy_locally] off: with the
    same value, or with an error of the same kind; and it leaves the same
    files and directories. *)
Theorem copy_locally_transparent (self : Video) (s : string) (w : world)
    (c : bytes) tmp rest d2 rest2 :
  reads_content_only env self ->
  w_files w !! s = Some c -> env_copy_fault env s = None ->
  s <> "pipe:0" -> tmp <> "pipe:0" ->
  first_unused w (w_names w) = Some (tmp, rest) ->
  first_unused (set_files (<[tmp:=c]> (w_files w)) w) rest = Some (d2, rest2) ->
  let r1 := encode_example env (set_copy_locally true self) (PyStr s) w in
  let r2 := encode_example env (set_copy_locally false self) (PyStr s) w in
  agree (res r1) (res r2) /\
  w_files (post r1) = w_files (post r2) /\ w_dirs (post r1) = w_dirs (post r2).
Proof.
  intros Hdet Hs Hcopy Hs0 Htmp0 Hfresh Hfresh2 r1 r2.
  set (self1 := set_copy_locally true self) in *.
  set (self2 := set_copy_locally false self) in *.
  destruct (encode_copy_outcome env self1 s w tmp rest eq_refl Hfresh)
    as (Hf1 & Hd1 & _ & _ & Hr1).
  assert (Hg : gfile_read env w s = Some c) by (unfold gfile_read; now rewrite Hs).
  specialize (Hr1 (ex_intro _ c Hg)).
  destruct (first_unused_fresh _ _ _ _ Hfresh) as [Hf Hd].
  pose proof (copy_and_decode_spec env self1 s tmp (set_names rest w) Hf Hd) as Hb.
  cbv zeta in Hb.
  change (gfile_read env (set_names rest w) s) with (gfile_read env w s) in Hb.
  rewrite Hg, Hcopy in Hb. destruct Hb as (Hres & _ & _).
  set (w2 := set_files (<[tmp:=c]> (w_files (set_names rest w))) (set_names rest w)) in *.
  pose proof (ffmpeg_decode_path env self1 tmp w2) as H1. cbv zeta in H1.
  change (w_names w2) with rest in H1.
  assert (Hfu : first_unused w2 rest = Some (d2, rest2))
    by (rewrite <- Hfresh2; apply first_unused_ext; reflexivity).
  rewrite Hfu in H1.
  change (w_files w2) with (<[tmp:=c]> (w_files w)) in H1.
  assert (E2 : r2 = _) by apply (encode_direct env self2 (PyStr s) w eq_refl).
  destruct (ffmpeg_decode_spec env self2 (PyStr s) w) as (Hf2 & Hd2 & _).
  pose proof (ffmpeg_decode_path env self2 s w) as H2. cbv zeta in H2.
  rewrite Hfresh in H2.
  assert (Hlook : <[tmp:=c]> (w_files w) !! tmp = w_files w !! s)
    by (rewrite Hs; apply lookup_insert_eq).
  pose proof (Hdet tmp s d2 tmp _ _ Htmp0 Hs0 Hlook) as Hsame.
  change (ffmpeg_argv self1 tmp d2) with (ffmpeg_argv self tmp d2) in H1.
  change (ffmpeg_argv self2 s tmp) with (ffmpeg_argv self s tmp) in H2.
  assert (Hpost2 : post r2 = post (_ffmpeg_decode env self2 (PyStr s) w)).
  { rewrite E2. cbv zeta.
    destruct (res (_ffmpeg_decode env self2 (PyStr s) w)); reflexivity. }
  fold r1 in Hf1, Hd1, Hr1.
  rewrite Hf1, Hd1, Hpost2, Hf2, Hd2. split; [|split; reflexivity].
  rewrite Hr1, Hres, E2. cbv zeta.
  destruct (env_decoder env (ffmpeg_argv self tmp d2) None (<[tmp:=c]> (w_files w)))
    as [msg1|rc1 out1 err1 written1];
    destruct (env_decoder env (ffmpeg_argv self s tmp) None (w_files w))
      as [msg2|rc2 out2 err2 written2]; simpl in Hsame; try contradiction.
  - destruct H1 as [-> _], H2 as [-> _]. exact I.
  - destruct Hsame as [<- Hw].
    destruct (Z.eqb_spec rc1 0) as [Hz|_].
    + destruct H1 as [-> _], H2 as [-> _]. rewrite (Hw Hz). simpl.
      destruct (env_sequence_encode env _) as [x|e]; simpl; [reflexivity|].
      destruct e; reflexivity.
    + destruct H1 as [-> _], H2 as [-> _]. exact I.
Qed.

End Claims.

(** ** The claims on concrete calls *)

(** C1, as the specification words it, fails: the decoder exits with
    status zero, has written no frame, and [_ffmpeg_decode] returns the
    empty list instead of raising. *)
Lemma decode_no_frames_no_error :
  events (_ffmpeg_decode Demo.no_frame_env Demo.video (PyStr "video.mkv")
            Demo.world0)
  = [EvMkdtemp "/tmp/tmp1"; EvPopen Demo.argv0 None; EvListdir "/tmp/tmp1";
     EvRmtree "/tmp/tmp1"] /\
  env_decoder Demo.no_frame_env Demo.argv0 None (w_files Demo.world0)
  = Exited 0 "" "" ∅ /\
  res (_ffmpeg_decode Demo.no_frame_env Demo.video (PyStr "video.mkv")
         Demo.world0) = Ok [] /\
  is_raise (res (_ffmpeg_decode Demo.no_frame_env Demo.video
                   (PyStr "video.mkv") Demo.world0)) = false.
Proof. vm_compute. repeat split. Qed.

Lemma decode_no_frames_returns_empty_witness :
  EvPopen Demo.argv0 None ∈
    events (_ffmpeg_decode Demo.no_frame_env Demo.video (PyStr "video.mkv")
              Demo.world0) /\
  res (_ffmpeg_decode Demo.no_frame_env Demo.video (PyStr "video.mkv")
         Demo.world0) = Ok [] /\
  is_raise (res (_ffmpeg_decode Demo.no_frame_env Demo.video
                   (PyStr "video.mkv") Demo.world0)) = false.
Proof.
  assert (Hin : EvPopen Demo.argv0 None ∈
    events (_ffmpeg_decode Demo.no_frame_env Demo.video (PyStr "video.mkv")
              Demo.world0)).
  { vm_compute. apply list_elem_of_further, list_elem_of_here. }
  split; [exact Hin|].
  apply (decode_no_frames_returns_empty Demo.no_frame_env Demo.video
           (PyStr "video.mkv") Demo.world0 Demo.argv0 None "" "" Hin).
  reflexivity.
Defined.

Lemma encode_rejects_non_stream_witness :
  readable_stream Demo.an_int = false /\
  (exists attr,
     res (encode_example Demo.env Demo.video (PyObj Demo.an_int) Demo.world0)
     = Raise (AttributeError attr)) /\
  post (encode_example Demo.env Demo.video (PyObj Demo.an_int) Demo.world0)
  = Demo.world0 /\
  Forall quiet
    (events (encode_example Demo.env Demo.video (PyObj Demo.an_int) Demo.world0)).
Proof.
  split; [reflexivity|].
  apply (encode_rejects_non_stream Demo.env Demo.video Demo.an_int Demo.world0).
  reflexivity.
Defined.

(** C3, as the specification words it, fails: the source cannot be read,
    the copy raises [NotFoundError]; the temporary file was never made,
    so [os.unlink] raises in the [finally] clause, and it is its
    [OSError] that the caller receives. *)
Lemma local_copy_error_replaced :
  res (tempfile_mktemp Demo.world0) = Ok "/tmp/tmp1" /\
  res (copy_and_decode Demo.env Demo.video_copy "missing.mkv" "/tmp/tmp1"
         (post (tempfile_mktemp Demo.world0)))
  = Raise (NotFoundError "missing.mkv") /\
  res (encode_example Demo.env Demo.video_copy (PyStr "missing.mkv")
         Demo.world0)
  = Raise (OSError "/tmp/tmp1") /\
  events (encode_example Demo.env Demo.video_copy (PyStr "missing.mkv")
            Demo.world0)
  = [EvMktemp "/tmp/tmp1"; EvCopy "missing.mkv" "/tmp/tmp1";
     EvUnlink "/tmp/tmp1"].
Proof. vm_compute. repeat split. Qed.

Lemma local_copy_removed_witness :
  _copy_locally Demo.video_copy = true /\
  first_unused Demo.world0 (w_names Demo.world0)
  = Some ("/tmp/tmp1", ["/tmp/tmp2"; "/tmp/tmp3"]) /\
  is_Some (gfile_read Demo.env Demo.world0 "video.mkv") /\
  w_files (post (encode_example Demo.env Demo.video_copy (PyStr "video.mkv")
                   Demo.world0)) !! "/tmp/tmp1" = None /\
  res (encode_example Demo.env Demo.video_copy (PyStr "video.mkv") Demo.world0)
  = Ok (EncFrames ["C"; "A"; "B"]).
Proof.
  assert (Hc : _copy_locally Demo.video_copy = true) by reflexivity.
  assert (Hfresh : first_unused Demo.world0 (w_names Demo.world0)
                   = Some ("/tmp/tmp1", ["/tmp/tmp2"; "/tmp/tmp3"]))
    by reflexivity.
  assert (Hsrc : is_Some (gfile_read Demo.env Demo.world0 "video.mkv"))
    by (exists "CAB"; reflexivity).
  destruct (local_copy_removed Demo.env Demo.video_copy "video.mkv"
              Demo.world0 "/tmp/tmp1" ["/tmp/tmp2"; "/tmp/tmp3"] Hc Hfresh)
    as (_ & _ & Hgone & _ & Hres).
  split; [exact Hc|]. split; [exact Hfresh|]. split; [exact Hsrc|].
  split; [exact Hgone|].
  rewrite (Hres Hsrc). vm_compute. reflexivity.
Defined.

Lemma decode_raises_iff_nonzero_witness :
  EvPopen ["ffmpeg"; "-i"; "missing.mkv"; "-r"; "1"; "/tmp/tmp1/%010d.png"] None ∈
    events (_ffmpeg_decode Demo.env Demo.video (PyStr "missing.mkv") Demo.world0) /\
  res (_ffmpeg_decode Demo.env Demo.video (PyStr "missing.mkv") Demo.world0)
  = Raise (ValueError
      ("ffmpeg returned error code 1, command=ffmpeg -i missing.mkv -r 1 /tmp/tmp1/%010d.png"
       +:+ newline +:+ "stdout=" +:+ newline +:+
       "stderr=missing.mkv: No such file or directory" +:+ newline)).
Proof.
  assert (Hin : EvPopen ["ffmpeg"; "-i"; "missing.mkv"; "-r"; "1";
                         "/tmp/tmp1/%010d.png"] None ∈
    events (_ffmpeg_decode Demo.env Demo.video (PyStr "missing.mkv") Demo.world0)).
  { vm_compute. apply list_elem_of_further, list_elem_of_here. }
  split; [exact Hin|].
  destruct (decode_raises_iff_nonzero Demo.env Demo.video (PyStr "missing.mkv")
              Demo.world0 _ None 1 ""
              "missing.mkv: No such file or directory" ∅ Hin eq_refl)
    as [_ Hmsg].
  rewrite Hmsg by discriminate. reflexivity.
Defined.

Lemma decoder_argument_vector_witness :
  first_unused Demo.world0 (w_names Demo.world0)
  = Some ("/tmp/tmp1", ["/tmp/tmp2"; "/tmp/tmp3"]) /\
  readable_stream Demo.stream = true /\
  (exists tail,
     events (_ffmpeg_decode Demo.env Demo.video (PyObj Demo.stream) Demo.world0)
     = EvSeek :: EvRead :: EvMkdtemp "/tmp/tmp1" ::
       EvPopen ["ffmpeg"; "-i"; "pipe:0"; "-r"; "1"; "/tmp/tmp1/%010d.png"]
               (Some "QR") :: tail) /\
  (exists tail,
     events (_ffmpeg_decode Demo.env Demo.video (PyStr "video.mkv") Demo.world0)
     = EvMkdtemp "/tmp/tmp1" :: EvPopen Demo.argv0 None :: tail) /\
  (exists tail,
     events (_ffmpeg_decode Demo.env Demo.video (PyObj demo_text_stream)
               Demo.world0)
     = EvSeek :: EvRead :: EvMkdtemp "/tmp/tmp1" ::
       EvPopenText ["ffmpeg"; "-i"; "pipe:0"; "-r"; "1"; "/tmp/tmp1/%010d.png"]
                   "CAB" :: tail) /\
  exists source d,
    ["ffmpeg"; "-i"; "pipe:0"; "-r"; "1"; "/tmp/tmp1/%010d.png"]
    = ["ffmpeg"; "-i"; source] ++ ["-r"; "1"] ++
      [os_path_join d ("%010d." +:+ "png")] /\
    EvMkdtemp d ∈
      events (_ffmpeg_decode Demo.env Demo.video (PyObj Demo.stream) Demo.world0) /\
    path_exists Demo.world0 d = false /\
    source = "pipe:0" /\ Some "QR" = Some (ob_content Demo.stream).
Proof.
  assert (Hfresh : first_unused Demo.world0 (w_names Demo.world0)
                   = Some ("/tmp/tmp1", ["/tmp/tmp2"; "/tmp/tmp3"]))
    by reflexivity.
  assert (Ho : readable_stream Demo.stream = true) by reflexivity.
  assert (Hin : EvPopen ["ffmpeg"; "-i"; "pipe:0"; "-r"; "1";
                         "/tmp/tmp1/%010d.png"] (Some "QR") ∈
    events (_ffmpeg_decode Demo.env Demo.video (PyObj Demo.stream) Demo.world0)).
  { vm_compute. do 3 apply list_elem_of_further. apply list_elem_of_here. }
  split; [exact Hfresh|]. split; [exact Ho|].
  split; [|split; [|split]].
  - exact (proj1 (decoder_argument_vector Demo.env Demo.video
                    (PyObj Demo.stream) Demo.world0) _ _ Hfresh Ho).
  - exact (proj1 (decoder_argument_vector Demo.env Demo.video
                    (PyStr "video.mkv") Demo.world0) _ _ Hfresh).
  - exact (proj1 (decoder_argument_vector Demo.env Demo.video
                    (PyObj demo_text_stream) Demo.world0) _ _ Hfresh eq_refl).
  - exact (proj1 (proj2 (decoder_argument_vector Demo.env Demo.video
                           (PyObj Demo.stream) Demo.world0)) _ _ Hin).
Defined.

Lemma decode_leaves_no_temp_dir_witness :
  EvMkdtemp "/tmp/tmp1" ∈
    events (_ffmpeg_decode Demo.env Demo.video (PyStr "video.mkv") Demo.world0) /\
  EvRmtree "/tmp/tmp1" ∈
    events (_ffmpeg_decode Demo.env Demo.video (PyStr "video.mkv") Demo.world0) /\
  w_dirs (post (_ffmpeg_decode Demo.env Demo.video (PyStr "video.mkv")
                  Demo.world0)) !! "/tmp/tmp1" = None.
Proof.
  assert (Hin : EvMkdtemp "/tmp/tmp1" ∈
    events (_ffmpeg_decode Demo.env Demo.video (PyStr "video.mkv") Demo.world0)).
  { vm_compute. apply list_elem_of_here. }
  split; [exact Hin|].
  destruct (decode_leaves_no_temp_dir Demo.env Demo.video (PyStr "video.mkv")
              Demo.world0) as (_ & _ & H).
  exact (H "/tmp/tmp1" Hin).
Defined.

Lemma frames_sorted_by_name_witness :
  EvPopen Demo.argv0 None ∈
    events (_ffmpeg_decode Demo.env Demo.video (PyStr "video.mkv") Demo.world0) /\
  exists names images,
    res (_ffmpeg_decode Demo.env Demo.video (PyStr "video.mkv") Demo.world0)
    = Ok images /\
    names ≡ₚ (map_to_list (Demo.frames_of 1 "CAB")).*1 /\
    Sorted str_le names /\ NoDup names /\
    Forall2 (fun n c => Demo.frames_of 1 "CAB" !! n = Some c) names images.
Proof.
  assert (Hin : EvPopen Demo.argv0 None ∈
    events (_ffmpeg_decode Demo.env Demo.video (PyStr "video.mkv") Demo.world0)).
  { vm_compute. apply list_elem_of_further, list_elem_of_here. }
  split; [exact Hin|].
  destruct (frames_sorted_by_name Demo.env Demo.video (PyStr "video.mkv")
              Demo.world0) as [_ H].
  exact (H Demo.argv0 None "" "" (Demo.frames_of 1 "CAB") Hin eq_refl).
Defined.

(** The toy decoder looks at nothing but the content of its input. *)
Lemma demo_decoder_reads_content_only (self : Video) :
  reads_content_only Demo.env self.
Proof.
  intros src1 src2 d1 d2 files1 files2 H1 H2 Hsame.
  unfold ffmpeg_argv. simpl. unfold Demo.decoder. simpl.
  apply String.eqb_neq in H1, H2. rewrite H1, H2, Hsame.
  destruct (files2 !! src2); simpl; auto.
Qed.

(** C9, as the specification words it, fails: a file that only
    [tf.gfile] can read is decoded when it is first copied, and makes the
    decoder fail when it is not. *)
Lemma copy_locally_not_transparent :
  w_files Demo.world0 !! "gs://bucket/video.mkv" = None /\
  env_remote Demo.env !! "gs://bucket/video.mkv" = Some "xyz" /\
  res (encode_example Demo.env (set_copy_locally true Demo.video)
         (PyStr "gs://bucket/video.mkv") Demo.world0)
  = Ok (EncFrames ["x"; "y"; "z"]) /\
  res (encode_example Demo.env (set_copy_locally false Demo.video)
         (PyStr "gs://bucket/video.mkv") Demo.world0)
  = Raise (ValueError
      ("ffmpeg returned error code 1, command=ffmpeg -i gs://bucket/video.mkv -r 1 /tmp/tmp1/%010d.png"
       +:+ newline +:+ "stdout=" +:+ newline +:+
       "stderr=gs://bucket/video.mkv: No such file or directory" +:+ newline)) /\
  res (encode_example Demo.env (set_copy_locally true Demo.video)
         (PyStr "gs://bucket/video.mkv") Demo.world0)
  <> res (encode_example Demo.env (set_copy_locally false Demo.video)
            (PyStr "gs://bucket/video.mkv") Demo.world0).
Proof. vm_compute. repeat split. discriminate. Qed.

Lemma copy_locally_transparent_witness :
  reads_content_only Demo.env Demo.video /\
  w_files Demo.world0 !! "video.mkv" = Some "CAB" /\
  agree (res (encode_example Demo.env (set_copy_locally true Demo.video)
                (PyStr "video.mkv") Demo.world0))
        (res (encode_example Demo.env (set_copy_locally false Demo.video)
                (PyStr "video.mkv") Demo.world0)) /\
  res (encode_example Demo.env (set_copy_locally false Demo.video)
         (PyStr "video.mkv") Demo.world0)
  = Ok (EncFrames ["C"; "A"; "B"]).
Proof.
  split; [apply demo_decoder_reads_content_only|].
  split; [reflexivity|].
  split; [|vm_compute; reflexivity].
  apply (copy_locally_transparent Demo.env Demo.video "video.mkv" Demo.world0
           "CAB" "/tmp/tmp1" ["/tmp/tmp2"; "/tmp/tmp3"] "/tmp/tmp2" ["/tmp/tmp3"]).
  - apply demo_decoder_reads_content_only.
  - reflexivity.
  - reflexivity.
  - discriminate.
  - discriminate.
  - reflexivity.
  - reflexivity.
Defined.

Lemma path_not_checked_witness :
  _copy_locally Demo.video = false /\
  w_files Demo.world0 !! "missing.mkv" = None /\
  (exists tail,
     events (encode_example Demo.env Demo.video (PyStr "missing.mkv") Demo.world0)
     = EvMkdtemp "/tmp/tmp1" ::
       EvPopen ["ffmpeg"; "-i"; "missing.mkv"; "-r"; "1"; "/tmp/tmp1/%010d.png"]
               None :: tail) /\
  res (encode_example Demo.env Demo.video (PyStr "missing.mkv") Demo.world0)
  = Raise (ValueError
      ("ffmpeg returned error code 1, command=ffmpeg -i missing.mkv -r 1 /tmp/tmp1/%010d.png"
       +:+ newline +:+ "stdout=" +:+ newline +:+
       "stderr=missing.mkv: No such file or directory" +:+ newline)).
Proof.
  split; [reflexivity|]. split; [reflexivity|].
  destruct (path_not_checked Demo.env Demo.video "missing.mkv" Demo.world0
              "/tmp/tmp1" ["/tmp/tmp2"; "/tmp/tmp3"] eq_refl eq_refl)
    as (Hev & Hres & _).
  split; [exact Hev|].
  destruct (Hres 1%Z "" "missing.mkv: No such file or directory" ∅ eq_refl)
    as [Hmsg _]; [discriminate|].
  rewrite Hmsg. reflexivity.
Defined.

(** * Further properties *)

(** ** Numbered file names *)

Example frame_file_name_3 : frame_file_name "png" 3 = "0000000003.png".
Proof. vm_compute. reflexivity. Qed.

Example frame_file_name_demo :
  map (fun i => frame_file_name "png" (N.of_nat i)) [1; 42; 987]
  = map Demo.frame_name [1; 42; 987].
Proof. vm_compute. reflexivity. Qed.

Lemma string_compare_refl (s : string) : String.compare s s = Eq.
Proof.
  induction s as [|a s IH]; [reflexivity|]. simpl.
  unfold Ascii.compare. now rewrite N.compare_refl.
Qed.

Lemma digit_char_compare (a b : N) :
  (a < 10)%N -> (b < 10)%N ->
  Ascii.compare (digit_char a) (digit_char b) = N.compare a b.
Proof.
  intros Ha Hb. unfold Ascii.compare, digit_char.
  rewrite !N_ascii_embedding by lia.
  destruct (N.compare_spec a b) as [->|Hab|Hab].
  - apply N.compare_refl.
  - apply N.compare_lt_iff. lia.
  - apply N.compare_gt_iff. lia.
Qed.

Lemma base_compare (p qi ri qj rj : N) :
  (ri < p)%N -> (rj < p)%N ->
  (p * qi + ri ?= p * qj + rj)%N
  = match (qi ?= qj)%N with Eq => (ri ?= rj)%N | c => c end.
Proof.
  intros Hi Hj.
  destruct (N.compare_spec qi qj) as [->|Hlt|Hgt].
  - destruct (N.compare_spec ri rj) as [Hr|Hr|Hr];
      [apply N.compare_eq_iff|apply N.compare_lt_iff|apply N.compare_gt_iff];
      lia.
  - apply N.compare_lt_iff. nia.
  - apply N.compare_gt_iff. nia.
Qed.

(** Numbers written with the same number of digits compare as their
    digit strings do, whatever follows the digits. *)
Lemma fixed_width_compare (suffix : string) (k : nat) : forall i j : N,
  (i < 10 ^ N.of_nat k)%N -> (j < 10 ^ N.of_nat k)%N ->
  String.compare (fixed_width k i +:+ suffix) (fixed_width k j +:+ suffix)
  = N.compare i j.
Proof.
  induction k as [|k IH]; intros i j Hi Hj.
  - simpl in *. assert (i = 0%N) by lia. assert (j = 0%N) by lia. subst.
    apply string_compare_refl.
  - rewrite Nat2N.inj_succ, N.pow_succ_r' in Hi, Hj.
    set (p := (10 ^ N.of_nat k)%N) in *.
    assert (Hp : (0 < p)%N) by (apply N.neq_0_lt_0, N.pow_nonzero; lia).
    cbn [fixed_width String.append]. fold p.
    pose proof (N.div_mod i p ltac:(lia)) as Ei.
    pose proof (N.div_mod j p ltac:(lia)) as Ej.
    pose proof (N.mod_lt i p ltac:(lia)) as Ri.
    pose proof (N.mod_lt j p ltac:(lia)) as Rj.
    assert (Qi : (i / p < 10)%N) by (apply N.Div0.div_lt_upper_bound; lia).
    assert (Qj : (j / p < 10)%N) by (apply N.Div0.div_lt_upper_bound; lia).
    change (String.compare
              (String (digit_char (i / p)) (fixed_width k (i mod p) +:+ suffix))
              (String (digit_char (j / p)) (fixed_width k (j mod p) +:+ suffix))
            = N.compare i j).
    cbn [String.compare]. rewrite digit_char_compare by assumption.
    rewrite (IH (i mod p)%N (j mod p)%N) by assumption.
    replace (i ?= j)%N
      with (p * (i / p) + i mod p ?= p * (j / p) + j mod p)%N
      by (rewrite <- Ei, <- Ej; reflexivity).
    rewrite (base_compare p) by assumption.
    destruct (i / p ?= j / p)%N; reflexivity.
Qed.

Lemma frame_file_name_compare (encoding_format : string) (i j : N) :
  (i < 10 ^ 10)%N -> (j < 10 ^ 10)%N ->
  String.compare (frame_file_name encoding_format i)
                 (frame_file_name encoding_format j) = N.compare i j.
Proof.
  intros Hi Hj. unfold frame_file_name, printf_010d.
  apply N.ltb_lt in Hi as Hi', Hj as Hj'. rewrite Hi', Hj'.
  apply (fixed_width_compare ("." +:+ encoding_format) 10); assumption.
Qed.

Lemma numbered_names (encoding_format : string) (frames : list bytes) :
  forall (start : N) (n : string),
    n ∈ (numbered encoding_format start frames).*1 ->
    exists i, (start <= i < start + N.of_nat (length frames))%N /\
              n = frame_file_name encoding_format i.
Proof.
  induction frames as [|c frames IH]; intros start n Hn; simpl in Hn.
  - now apply elem_of_nil in Hn.
  - apply elem_of_cons in Hn as [->|Hn].
    + exists start. split; [simpl; lia|reflexivity].
    + apply IH in Hn as (i & Hi & ->). exists i. split; [simpl length; lia|reflexivity].
Qed.

(** Below [10^10] the numbered names ascend, without repetition. *)
Lemma numbered_sorted (encoding_format : string) (frames : list bytes) :
  forall start : N,
    (start + N.of_nat (length frames) <= 10 ^ 10)%N ->
    Sorted str_le (numbered encoding_format start frames).*1 /\
    NoDup (numbered encoding_format start frames).*1.
Proof.
  induction frames as [|c frames IH]; intros start Hb; simpl.
  - split; constructor.
  - simpl length in Hb. destruct (IH (start + 1)%N ltac:(lia)) as [Hs Hnd].
    split.
    + constructor; [exact Hs|].
      destruct frames as [|c' frames]; constructor. simpl.
      unfold str_le. apply leb_not_gt.
      rewrite frame_file_name_compare by (simpl length in Hb; lia).
      rewrite (proj2 (N.compare_lt_iff _ _)) by lia. discriminate.
    + constructor; [|exact Hnd]. intros Hin.
      apply numbered_names in Hin as (i & Hi & Heq).
      assert (Hc : String.compare (frame_file_name encoding_format start)
                                  (frame_file_name encoding_format i) = Eq)
        by (rewrite <- Heq; apply string_compare_refl).
      rewrite frame_file_name_compare in Hc by lia.
      apply N.compare_eq_iff in Hc. lia.
Qed.

Lemma numbered_contents (encoding_format : string) (frames : list bytes) :
  forall start : N, (numbered encoding_format start frames).*2 = frames.
Proof.
  induction frames as [|c frames IH]; intros start; simpl; [reflexivity|].
  now rewrite IH.
Qed.

(** Files whose names ascend come back in the order of their names. *)
Lemma frames_by_name_ascending (l : list (string * bytes)) :
  Sorted str_le l.*1 -> NoDup l.*1 ->
  frames_by_name (list_to_map l) = l.*2.
Proof.
  intros Hs Hnd. unfold frames_by_name.
  assert (Hkeys : sorted (map_to_list (list_to_map l : gmap string bytes)).*1 = l.*1).
  { apply (Sorted_unique str_le); [apply sorted_Sorted|exact Hs|].
    rewrite sorted_Permutation. now rewrite map_to_list_to_map. }
  rewrite Hkeys, <- list_fmap_compose. apply list_fmap_ext.
  intros i [n c] Hi. simpl.
  apply list_elem_of_lookup_2 in Hi.
  now rewrite (elem_of_list_to_map_1 l n c Hnd Hi).
Qed.

Section MoreRuns.

Context {R : Type}.
Variable env : environment R.

Lemma ffmpeg_input_events (v : pyvalue) (w : world) :
  Forall (fun e => e = EvSeek \/ e = EvRead) (events (ffmpeg_input v w)).
Proof.
  destruct v as [a|s|o]; simpl; try constructor.
  unfold obj_seek, obj_read. cbv beta delta [bind] zeta.
  destruct (ob_has_seek o), (ob_has_read o);
    destruct (file_fault o) as [[e|e|]|]; simpl;
    repeat (constructor; [auto|]); constructor.
Qed.

(** [_ffmpeg_decode] seeks, reads, makes a directory, starts the decoder,
    lists, opens and removes; it does nothing else. *)
Lemma decode_events_kind (self : Video) (v : pyvalue) (w : world) :
  Forall decode_event (events (_ffmpeg_decode env self v w)).
Proof.
  destruct (ffmpeg_decode_spec env self v w) as (_ & _ & H).
  assert (Hin : Forall decode_event (events (ffmpeg_input v w))).
  { eapply Forall_impl; [apply ffmpeg_input_events|].
    intros e [->| ->]; exact I. }
  set (r0 := ffmpeg_input v w) in *.
  destruct (res r0) as [[args0 stdin]|e].
  2:{ destruct H as (_ & -> & _). exact Hin. }
  destruct (first_unused w (w_names w)) as [[d rest]|].
  2:{ destruct H as (_ & ->). exact Hin. }
  destruct H as [_ H]. cbv zeta in H.
  destruct (stdin_text stdin) as [text|].
  { destruct H as [_ ->]. apply Forall_app. split; [exact Hin|].
    repeat constructor. }
  destruct (env_decoder env _ (stdin_bytes stdin) (w_files w))
    as [msg|rc out err written].
  - destruct H as [_ ->]. apply Forall_app. split; [exact Hin|].
    repeat constructor.
  - destruct (Z.eqb rc 0); destruct H as [_ ->]; apply Forall_app;
      (split; [exact Hin|]); [|repeat constructor].
    repeat (constructor; [exact I|]).
    apply Forall_app. split; [|repeat constructor].
    apply Forall_fmap, Forall_forall. intros n _. exact I.
Qed.

Lemma spawn_count_app (l1 l2 : list event) :
  spawn_count (l1 ++ l2) = spawn_count l1 + spawn_count l2.
Proof. unfold spawn_count. now rewrite List.filter_app, length_app. Qed.

Lemma spawn_count_none (l : list event) :
  Forall (fun e => spawns e = false) l -> spawn_count l = 0.
Proof.
  unfold spawn_count. induction 1 as [|e l He _ IH]; [reflexivity|].
  simpl. now rewrite He.
Qed.

Lemma quiet_no_spawn (l : list event) :
  Forall quiet l -> Forall (fun e => spawns e = false) l.
Proof. intros H. eapply Forall_impl; [exact H|]. now intros e [? _]. Qed.

Lemma decode_spawn_count (self : Video) (v : pyvalue) (w : world) :
  spawn_count (events (_ffmpeg_decode env self v w)) <= 1.
Proof.
  destruct (decode_events_shape env self v w)
    as [Hq|(pre & d & rest & e & tail & _ & -> & He & Hpre & Htail)].
  - rewrite spawn_count_none by now apply quiet_no_spawn. lia.
  - rewrite spawn_count_app, (spawn_count_none pre) by now apply quiet_no_spawn.
    change (EvMkdtemp d :: e :: tail ++ [EvRmtree d])
      with ([EvMkdtemp d; e] ++ tail ++ [EvRmtree d]).
    rewrite !spawn_count_app, (spawn_count_none tail)
      by now apply quiet_no_spawn.
    unfold spawn_count. simpl. rewrite He. simpl. lia.
Qed.

Lemma decode_mkdtemp_fresh (self : Video) (v : pyvalue) (w : world) (d : string) :
  EvMkdtemp d ∈ events (_ffmpeg_decode env self v w) ->
  w_files w !! d = None /\ w_dirs w !! d = None.
Proof.
  intros Hin.
  destruct (decode_events_shape env self v w)
    as [Hq|(pre & d' & rest & e & tail & Hfresh & Hev & He & Hpre & Htail)].
  - apply (proj1 (Forall_forall _ _) Hq) in Hin as [_ Ha]. discriminate.
  - rewrite Hev in Hin. apply mkdtemp_among_quiet in Hin as ->; [|assumption..].
    now apply first_unused_fresh in Hfresh.
Qed.

Lemma os_unlink_events (p : string) (w : world) :
  events (os_unlink p w) = [EvUnlink p].
Proof. unfold os_unlink. destruct (w_files w !! p); reflexivity. Qed.

(** [encode_example] when a local copy is wanted and [tempfile] has no
    name to offer. *)
Lemma encode_copy_no_name (self : Video) (s : string) (w : world) :
  _copy_locally self = true ->
  first_unused w (w_names w) = None ->
  encode_example env self (PyStr s) w
  = Run (Raise FileExistsError) (set_names [] w) [].
Proof.
  intros Hc Hnone. unfold encode_example. rewrite Hc.
  generalize (copy_and_decode env self s). intros body.
  cbv beta delta [bind try_finally] zeta.
  unfold tempfile_mktemp. rewrite Hnone. reflexivity.
Qed.

(** The effects of a call in which the decoder was started. *)
Lemma decode_invoked_events (self : Video) (v : pyvalue) (w : world)
    (argv : list string) (stdin : option bytes) :
  EvPopen argv stdin ∈ events (_ffmpeg_decode env self v w) ->
  exists d,
    path_exists w d = false /\
    events (_ffmpeg_decode env self v w) =
    events (ffmpeg_input v w) ++ EvMkdtemp d :: EvPopen argv stdin ::
      match env_decoder env argv stdin (w_files w) with
      | SpawnError _ => [EvRmtree d]
      | Exited rc _ _ written =>
        if Z.eqb rc 0 then
          EvListdir d :: ((fun n => EvOpen (os_path_join d n)) <$>
                            sorted (map_to_list written).*1) ++ [EvRmtree d]
        else [EvRmtree d]
      end.
Proof.
  intros Hin.
  destruct (decode_invoked env self v w argv stdin Hin)
    as (source & d & rest & Hfresh & -> & Hv & _ & _).
  exists d. split.
  { apply first_unused_fresh in Hfresh as [Hf Hd].
    unfold path_exists. now rewrite Hf, Hd. }
  destruct (ffmpeg_input_spec v w) as (_ & Hq & _).
  destruct (decode_events_shape env self v w)
    as [Hquiet|(pre & d' & rest' & e & tail & Hfresh' & Hev & He & Hpre & Htail)].
  { now apply no_popen_among_quiet in Hin. }
  rewrite Hfresh in Hfresh'. injection Hfresh' as <- <-.
  destruct (res (ffmpeg_input v w)) as [[args0 stdin0]|e0] eqn:Hr.
  2:{ destruct (ffmpeg_decode_spec env self v w) as (_ & _ & H).
      rewrite Hr in H. destruct H as (_ & Hev0 & _). rewrite Hev0 in Hin.
      now apply no_popen_among_quiet in Hin. }
  destruct (stdin_text stdin0) as [text|] eqn:Ht.
  { destruct (decode_started_text env self v w args0 stdin0 text d rest Hr Ht
                Hfresh) as [Hev0 _].
    rewrite Hev0 in Hin.
    apply elem_of_app in Hin as [Hin|Hin];
      [now apply no_popen_among_quiet in Hin|].
    repeat (apply elem_of_cons in Hin as [Hin|Hin]; [discriminate|]).
    now apply elem_of_nil in Hin. }
  pose proof (decode_started env self v w args0 stdin0 d rest Hr Ht Hfresh)
    as Hs.
  cbv zeta in Hs. destruct Hs as (tail0 & Hev0 & Htail0 & Hres).
  assert (Hin' := Hin). rewrite Hev0 in Hin'.
  apply popen_among_quiet in Hin' as [Ha Hb]; [|exact Hq|].
  2:{ apply Forall_app. split; [exact Htail0|]. repeat constructor. }
  rewrite <- Ha, <- Hb in Hev0, Hres. rewrite Hev0. f_equal. f_equal. f_equal.
  destruct (env_decoder env (ffmpeg_argv self source d) stdin (w_files w))
    as [msg|rc out err written].
  - destruct Hres as [_ ->]. reflexivity.
  - destruct (Z.eqb rc 0); destruct Hres as [_ ->]; reflexivity.
Qed.

(** [encode_example] when no local copy is made, by the outcome of the
    decoding. *)
Lemma encode_direct_cases (self : Video) (v : pyvalue) (w : world) :
  match v with
  | PyArray _ => False
  | PyStr _ => _copy_locally self = false
  | PyObj _ => True
  end ->
  let dec := _ffmpeg_decode env self v w in
  let r := encode_example env self v w in
  post r = post dec /\
  ((exists images,
      res dec = Ok images /\
      events r = events dec ++ [EvSequenceEncode (EncFrames images)] /\
      res r = env_sequence_encode env (EncFrames images)) \/
   (exists e, res dec = Raise e /\ events r = events dec /\ res r = Raise e)).
Proof.
  intros Hv dec r. subst r. rewrite (encode_direct env self v w Hv).
  cbv zeta. fold dec. destruct (res dec) as [images|e]; simpl.
  - split; [reflexivity|]. left. eauto.
  - split; [reflexivity|]. right. eauto.
Qed.

(** [encode_example] when a local copy is made and a name is to be had,
    by the outcome of the copy and of the decoding. *)
Lemma encode_copy_cases (self : Video) (s : string) (w : world) tmp rest :
  _copy_locally self = true ->
  first_unused w (w_names w) = Some (tmp, rest) ->
  let r := encode_example env self (PyStr s) w in
  (events r = [EvMktemp tmp; EvCopy s tmp; EvUnlink tmp] /\
   is_raise (res r) = true /\
   (gfile_read env w s = None \/ is_Some (env_copy_fault env s))) \/
  (exists c,
     gfile_read env w s = Some c /\ env_copy_fault env s = None /\
     let dec := _ffmpeg_decode env self (PyStr tmp)
                  (set_files (<[tmp:=c]> (w_files w)) (set_names rest w)) in
     ((exists images,
         res dec = Ok images /\
         events r = EvMktemp tmp :: EvCopy s tmp :: events dec ++
                    [EvUnlink tmp; EvSequenceEncode (EncFrames images)] /\
         res r = env_sequence_encode env (EncFrames images)) \/
      (exists e,
         res dec = Raise e /\
         events r = EvMktemp tmp :: EvCopy s tmp :: events dec ++ [EvUnlink tmp] /\
         res r = Raise e))).
Proof.
  intros Hc Hfresh r. subst r.
  rewrite (encode_copy env self s w tmp rest Hc Hfresh).
  destruct (first_unused_fresh _ _ _ _ Hfresh) as [Hf Hd].
  pose proof (copy_and_decode_spec env self s tmp (set_names rest w) Hf Hd) as Hb.
  cbv zeta in Hb |- *.
  change (gfile_read env (set_names rest w) s) with (gfile_read env w s) in Hb.
  set (body := copy_and_decode env self s tmp (set_names rest w)) in *.
  rewrite os_unlink_events.
  destruct (gfile_read env w s) as [c|];
    [destruct (env_copy_fault env s) as [part|]|].
  - left. rewrite Hb. unfold os_unlink. simpl. rewrite lookup_insert_eq. simpl.
    repeat split; eauto.
  - right. exists c. split; [reflexivity|]. split; [reflexivity|].
    change (w_files (set_names rest w)) with (w_files w) in Hb.
    set (dec := _ffmpeg_decode env self (PyStr tmp)
                  (set_files (<[tmp:=c]> (w_files w)) (set_names rest w))) in *.
    destruct Hb as (Hres & Hpost & Hev).
    destruct (ffmpeg_decode_spec env self (PyStr tmp)
                (set_files (<[tmp:=c]> (w_files w)) (set_names rest w)))
      as (Hf2 & _ & _).
    fold dec in Hf2. rewrite <- Hpost in Hf2. simpl in Hf2.
    assert (Hlook : w_files (post body) !! tmp = Some c)
      by (rewrite Hf2; apply lookup_insert_eq).
    clearbody dec body.
    unfold os_unlink. rewrite Hlook. simpl. rewrite Hres, Hev.
    destruct (res dec) as [images|e]; simpl.
    + left. exists images. repeat split.
      now rewrite <- app_assoc.
    + right. exists e. repeat split.
  - left. rewrite Hb. unfold os_unlink. simpl. rewrite Hf. simpl.
    repeat split; eauto.
Qed.

Lemma spawn_count_cons_no (e : event) (l : list event) :
  spawns e = false -> spawn_count (e :: l) = spawn_count l.
Proof. intros He. unfold spawn_count. simpl. now rewrite He. Qed.

Lemma decode_no_parent (self : Video) (v : pyvalue) (w : world) (enc : encoded) :
  EvSequenceEncode enc ∈ events (_ffmpeg_decode env self v w) -> False.
Proof.
  intros Hin.
  apply (proj1 (Forall_forall _ _) (decode_events_kind self v w)) in Hin.
  exact Hin.
Qed.

Lemma decode_no_mktemp (self : Video) (v : pyvalue) (w : world) (p : string) :
  EvMktemp p ∈ events (_ffmpeg_decode env self v w) -> False.
Proof.
  intros Hin.
  apply (proj1 (Forall_forall _ _) (decode_events_kind self v w)) in Hin.
  exact Hin.
Qed.

Lemma agree_refl {A} (r : result A) : agree r r.
Proof. destruct r as [a|e]; simpl; [reflexivity|]. destruct e; reflexivity. Qed.

(** Decodings that end alike make [encode_example] end alike. *)
Lemma encode_direct_agree (self : Video) (v1 v2 : pyvalue) (w1 w2 : world) :
  match v1 with
  | PyArray _ => False
  | PyStr _ => _copy_locally self = false
  | PyObj _ => True
  end ->
  match v2 with
  | PyArray _ => False
  | PyStr _ => _copy_locally self = false
  | PyObj _ => True
  end ->
  agree (res (_ffmpeg_decode env self v1 w1)) (res (_ffmpeg_decode env self v2 w2)) ->
  agree (res (encode_example env self v1 w1)) (res (encode_example env self v2 w2)).
Proof.
  intros H1 H2 Hag.
  destruct (encode_direct_cases self v1 w1 H1)
    as (_ & [(i1 & E1 & _ & ->)|(e1 & E1 & _ & ->)]);
    destruct (encode_direct_cases self v2 w2 H2)
      as (_ & [(i2 & E2 & _ & ->)|(e2 & E2 & _ & ->)]);
    rewrite E1, E2 in Hag; simpl in Hag; try contradiction.
  - subst i2. apply agree_refl.
  - exact Hag.
Qed.

(** Decoder runs that end alike make [_ffmpeg_decode] end alike. *)
Lemma decode_path_agree (self : Video) (s1 s2 : string) (w1 w2 : world)
    d1 rest1 d2 rest2 :
  first_unused w1 (w_names w1) = Some (d1, rest1) ->
  first_unused w2 (w_names w2) = Some (d2, rest2) ->
  same_frames (env_decoder env (ffmpeg_argv self s1 d1) None (w_files w1))
              (env_decoder env (ffmpeg_argv self s2 d2) None (w_files w2)) ->
  agree (res (_ffmpeg_decode env self (PyStr s1) w1))
        (res (_ffmpeg_decode env self (PyStr s2) w2)).
Proof.
  intros Hf1 Hf2 Hsame.
  pose proof (ffmpeg_decode_path env self s1 w1) as H1.
  pose proof (ffmpeg_decode_path env self s2 w2) as H2.
  cbv zeta in H1, H2. rewrite Hf1 in H1. rewrite Hf2 in H2.
  destruct (env_decoder env (ffmpeg_argv self s1 d1) None (w_files w1))
    as [msg1|rc1 out1 err1 written1];
    destruct (env_decoder env (ffmpeg_argv self s2 d2) None (w_files w2))
      as [msg2|rc2 out2 err2 written2]; simpl in Hsame; try contradiction.
  - destruct H1 as [-> _], H2 as [-> _]. exact I.
  - destruct Hsame as [<- Hw].
    destruct (Z.eqb_spec rc1 0) as [Hz|_].
    + destruct H1 as [-> _], H2 as [-> _]. now rewrite (Hw Hz).
    + destruct H1 as [-> _], H2 as [-> _]. exact I.
Qed.

End MoreRuns.

(** ** What a call does and never does *)

Section Extras.

Context {R : Type}.
Variable env : environment R.

(** X1: when the decoder has written one file per frame, named by the
    pattern at consecutive indices below [10^10], [_ffmpeg_decode]
    returns the frames in the order of their indices: the order of the
    names as strings is the order of the numbers. *)
Theorem frames_in_index_order (self : Video) (v : pyvalue) (w : world)
    (argv : list string) (stdin : option bytes) (out err : bytes)
    (start : N) (frames : list bytes) :
  (start + N.of_nat (length frames) <= 10 ^ 10)%N ->
  EvPopen argv stdin ∈ events (_ffmpeg_decode env self v w) ->
  env_decoder env argv stdin (w_files w)
  = Exited 0 out err (list_to_map (numbered (_encoding_format self) start frames)) ->
  res (_ffmpeg_decode env self v w) = Ok frames.
Proof.
  intros Hb Hin Hdec.
  apply decode_invoked in Hin as (source & d & rest & _ & _ & _ & _ & Hres).
  rewrite Hdec in Hres. simpl in Hres. rewrite Hres.
  destruct (numbered_sorted (_encoding_format self) frames start Hb) as [Hs Hnd].
  now rewrite frames_by_name_ascending, numbered_contents.
Qed.

(** X2: after a successful decoder run there is one frame in the result
    for every file in the output directory, whatever the files are
    called. *)
Theorem one_frame_per_file (self : Video) (v : pyvalue) (w : world)
    (argv : list string) (stdin : option bytes) (out err : bytes)
    (written : gmap string bytes) :
  EvPopen argv stdin ∈ events (_ffmpeg_decode env self v w) ->
  env_decoder env argv stdin (w_files w) = Exited 0 out err written ->
  exists images,
    res (_ffmpeg_decode env self v w) = Ok images /\
    length images = size written /\
    forall c, c ∈ images <-> exists n, written !! n = Some c.
Proof.
  intros Hin Hdec.
  apply decode_invoked in Hin as (source & d & rest & _ & _ & _ & _ & Hres).
  rewrite Hdec in Hres. simpl in Hres.
  exists (frames_by_name written). split; [exact Hres|]. split.
  - unfold frames_by_name.
    now rewrite length_fmap, sorted_Permutation, length_fmap, length_map_to_list.
  - intros c. unfold frames_by_name. rewrite list_elem_of_fmap. split.
    + intros (n & -> & Hn). rewrite sorted_Permutation in Hn.
      apply list_elem_of_fmap in Hn as ([n' c'] & -> & Hn').
      apply elem_of_map_to_list in Hn'. simpl. exists n'. now rewrite Hn'.
    + intros (n & Hn). exists n. rewrite Hn. split; [reflexivity|].
      rewrite sorted_Permutation. apply list_elem_of_fmap.
      exists (n, c). split; [reflexivity|]. now apply elem_of_map_to_list.
Qed.

(** X3: when the decoder exits with a nonzero status, the files it may
    have written are never looked at: the output directory is neither
    listed nor read before it is removed, and the call raises. *)
Theorem failed_decode_reads_nothing (self : Video) (v : pyvalue) (w : world)
    (argv : list string) (stdin : option bytes) (rc : Z) (out err : bytes)
    (written : gmap string bytes) :
  EvPopen argv stdin ∈ events (_ffmpeg_decode env self v w) ->
  env_decoder env argv stdin (w_files w) = Exited rc out err written ->
  rc <> 0%Z ->
  Forall (fun e => reads e = false) (events (_ffmpeg_decode env self v w)) /\
  is_raise (res (_ffmpeg_decode env self v w)) = true /\
  w_dirs (post (_ffmpeg_decode env self v w)) = w_dirs w.
Proof.
  intros Hin Hdec Hrc.
  destruct (decode_invoked_events env self v w argv stdin Hin) as (d & _ & Hev).
  destruct (ffmpeg_decode_spec env self v w) as (_ & Hd & _).
  apply decode_invoked in Hin as (source & d' & rest & _ & _ & _ & _ & Hres).
  rewrite Hdec in Hev, Hres. apply Z.eqb_neq in Hrc. rewrite Hrc in Hev, Hres.
  rewrite Hev, Hres. split; [|split; [reflexivity|exact Hd]].
  apply Forall_app. split; [|repeat constructor].
  eapply Forall_impl; [apply ffmpeg_input_events|].
  intros e [->| ->]; reflexivity.
Qed.

(** X4: when the decoder cannot be started, the [OSError] of [Popen]
    reaches the caller; nothing is listed or read, and the temporary
    directory has been removed. *)
Theorem spawn_failure_propagates (self : Video) (v : pyvalue) (w : world)
    (argv : list string) (stdin : option bytes) (msg : string) :
  EvPopen argv stdin ∈ events (_ffmpeg_decode env self v w) ->
  env_decoder env argv stdin (w_files w) = SpawnError msg ->
  res (_ffmpeg_decode env self v w) = Raise (OSError msg) /\
  Forall (fun e => reads e = false) (events (_ffmpeg_decode env self v w)) /\
  w_dirs (post (_ffmpeg_decode env self v w)) = w_dirs w.
Proof.
  intros Hin Hdec.
  destruct (decode_invoked_events env self v w argv stdin Hin) as (d & _ & Hev).
  destruct (ffmpeg_decode_spec env self v w) as (_ & Hd & _).
  apply decode_invoked in Hin as (source & d' & rest & _ & _ & _ & _ & Hres).
  rewrite Hdec in Hev, Hres.
  rewrite Hev, Hres. split; [reflexivity|]. split; [|exact Hd].
  apply Forall_app. split; [|repeat constructor].
  eapply Forall_impl; [apply ffmpeg_input_events|].
  intros e [->| ->]; reflexivity.
Qed.

(** X5: a call of [encode_example] starts the decoder at most once,
    whatever the input and however the call ends: a failed run is not
    tried again. *)
Theorem decoder_started_at_most_once (self : Video) (v : pyvalue) (w : world) :
  spawn_count (events (encode_example env self v w)) <= 1.
Proof.
  assert (Hdirect : forall v',
    match v' with
    | PyArray _ => False
    | PyStr _ => _copy_locally self = false
    | PyObj _ => True
    end -> spawn_count (events (encode_example env self v' w)) <= 1).
  { intros v' Hv. pose proof (decode_spawn_count env self v' w) as Hle.
    destruct (encode_direct_cases env self v' w Hv)
      as (_ & [(images & _ & -> & _)|(e & _ & -> & _)]); [|exact Hle].
    set (l := events (_ffmpeg_decode env self v' w)) in *. clearbody l.
    rewrite spawn_count_app. unfold spawn_count in *. simpl. lia. }
  destruct v as [a|s|o]; [unfold spawn_count; simpl; lia| |now apply Hdirect].
  destruct (_copy_locally self) eqn:Hc; [|now apply Hdirect].
  destruct (first_unused w (w_names w)) as [[tmp rest]|] eqn:Hfresh.
  2:{ rewrite (encode_copy_no_name env self s w Hc Hfresh).
      unfold spawn_count. simpl. lia. }
  destruct (encode_copy_cases env self s w tmp rest Hc Hfresh)
    as [(-> & _)|(c & _ & _ & H)].
  { unfold spawn_count. simpl. lia. }
  cbv zeta in H.
  pose proof (decode_spawn_count env self (PyStr tmp)
                (set_files (<[tmp:=c]> (w_files w)) (set_names rest w))) as Hle.
  set (l := events (_ffmpeg_decode env self (PyStr tmp)
                      (set_files (<[tmp:=c]> (w_files w)) (set_names rest w))))
    in *.
  clearbody l.
  destruct H as [(images & _ & -> & _)|(e & _ & -> & _)];
    rewrite !spawn_count_cons_no, spawn_count_app by reflexivity;
    unfold spawn_count in *; simpl; lia.
Qed.

(** X6: whatever the input, the configuration and the outcome,
    [encode_example] leaves the files and the directories as it found
    them: neither the temporary copy nor the temporary directory
    outlives the call. *)
Theorem encode_leaves_nothing_behind (self : Video) (v : pyvalue) (w : world) :
  w_files (post (encode_example env self v w)) = w_files w /\
  w_dirs (post (encode_example env self v w)) = w_dirs w.
Proof.
  assert (Hdirect : forall v',
    match v' with
    | PyArray _ => False
    | PyStr _ => _copy_locally self = false
    | PyObj _ => True
    end ->
    w_files (post (encode_example env self v' w)) = w_files w /\
    w_dirs (post (encode_example env self v' w)) = w_dirs w).
  { intros v' Hv. destruct (encode_direct_cases env self v' w Hv) as (-> & _).
    destruct (ffmpeg_decode_spec env self v' w) as (Hf & Hd & _). now split. }
  destruct v as [a|s|o]; [split; reflexivity| |now apply Hdirect].
  destruct (_copy_locally self) eqn:Hc; [|now apply Hdirect].
  destruct (first_unused w (w_names w)) as [[tmp rest]|] eqn:Hfresh.
  - destruct (encode_copy_outcome env self s w tmp rest Hc Hfresh)
      as (Hf & Hd & _). now split.
  - rewrite (encode_copy_no_name env self s w Hc Hfresh). split; reflexivity.
Qed.

(** X7: the parent's [encode_example] is what produces the result: when
    it has been called, the result of the call is its result on the
    value it was given; when it has not been called, the call has
    raised. *)
Theorem result_comes_from_parent (self : Video) (v : pyvalue) (w : world) :
  (forall enc,
     EvSequenceEncode enc ∈ events (encode_example env self v w) ->
     res (encode_example env self v w) = env_sequence_encode env enc) /\
  ((forall enc, EvSequenceEncode enc ∉ events (encode_example env self v w)) ->
   is_raise (res (encode_example env self v w)) = true).
Proof.
  assert (Hdirect : forall v',
    match v' with
    | PyArray _ => False
    | PyStr _ => _copy_locally self = false
    | PyObj _ => True
    end ->
    (forall enc,
       EvSequenceEncode enc ∈ events (encode_example env self v' w) ->
       res (encode_example env self v' w) = env_sequence_encode env enc) /\
    ((forall enc, EvSequenceEncode enc ∉ events (encode_example env self v' w)) ->
     is_raise (res (encode_example env self v' w)) = true)).
  { intros v' Hv.
    destruct (encode_direct_cases env self v' w Hv)
      as (_ & [(images & _ & -> & ->)|(e & _ & -> & ->)]); split.
    - intros enc Hin. apply elem_of_app in Hin as [Hin|Hin].
      + now apply decode_no_parent in Hin.
      + apply list_elem_of_singleton in Hin. now injection Hin as ->.
    - intros Hno. exfalso. apply (Hno (EncFrames images)).
      apply elem_of_app. right. apply list_elem_of_here.
    - intros enc Hin. now apply decode_no_parent in Hin.
    - reflexivity. }
  destruct v as [a|s|o]; [|
    destruct (_copy_locally self) eqn:Hc; [|now apply Hdirect] |
    now apply Hdirect].
  - split.
    + intros enc Hin. apply list_elem_of_singleton in Hin. now injection Hin as ->.
    + intros Hno. exfalso. apply (Hno (EncArray a)). apply list_elem_of_here.
  - destruct (first_unused w (w_names w)) as [[tmp rest]|] eqn:Hfresh.
    2:{ rewrite (encode_copy_no_name env self s w Hc Hfresh). split.
        - intros enc Hin. now apply elem_of_nil in Hin.
        - reflexivity. }
    destruct (encode_copy_cases env self s w tmp rest Hc Hfresh)
      as [(Hev & Hraise & _)|(c & _ & _ & H)].
    { split; [|intros _; exact Hraise].
      intros enc Hin. rewrite Hev in Hin.
      repeat (apply elem_of_cons in Hin as [Hin|Hin]; [discriminate|]).
      now apply elem_of_nil in Hin. }
    cbv zeta in H.
    destruct H as [(images & _ & -> & ->)|(e & _ & -> & ->)]; split.
    + intros enc Hin.
      do 2 (apply elem_of_cons in Hin as [Hin|Hin]; [discriminate|]).
      apply elem_of_app in Hin as [Hin|Hin];
        [now apply decode_no_parent in Hin|].
      apply elem_of_cons in Hin as [Hin|Hin]; [discriminate|].
      apply list_elem_of_singleton in Hin. now injection Hin as ->.
    + intros Hno. exfalso. apply (Hno (EncFrames images)).
      do 2 apply list_elem_of_further. apply elem_of_app. right.
      apply list_elem_of_further, list_elem_of_here.
    + intros enc Hin.
      do 2 (apply elem_of_cons in Hin as [Hin|Hin]; [discriminate|]).
      apply elem_of_app in Hin as [Hin|Hin];
        [now apply decode_no_parent in Hin|].
      apply list_elem_of_singleton in Hin. discriminate.
    + reflexivity.
Qed.

(** X8: every temporary name that a call takes was unused when the
    call began, and the temporary directory never has the name of the
    temporary copy, even when the name generator proposes a name twice. *)
Theorem temporary_names_fresh_and_distinct (self : Video) (v : pyvalue)
    (w : world) :
  (forall p,
     EvMktemp p ∈ events (encode_example env self v w) \/
     EvMkdtemp p ∈ events (encode_example env self v w) ->
     path_exists w p = false) /\
  (forall tmp d,
     EvMktemp tmp ∈ events (encode_example env self v w) ->
     EvMkdtemp d ∈ events (encode_example env self v w) ->
     tmp <> d).
Proof.
  assert (Hnone : forall p, w_files w !! p = None -> w_dirs w !! p = None ->
                            path_exists w p = false).
  { intros p Hf Hd. unfold path_exists. now rewrite Hf, Hd. }
  assert (Hdirect : forall v',
    match v' with
    | PyArray _ => False
    | PyStr _ => _copy_locally self = false
    | PyObj _ => True
    end ->
    (forall p,
       EvMktemp p ∈ events (encode_example env self v' w) \/
       EvMkdtemp p ∈ events (encode_example env self v' w) ->
       path_exists w p = false) /\
    (forall tmp d,
       EvMktemp tmp ∈ events (encode_example env self v' w) ->
       EvMkdtemp d ∈ events (encode_example env self v' w) ->
       tmp <> d)).
  { intros v' Hv.
    assert (Hev : forall e, calls_parent e = false ->
              e ∈ events (encode_example env self v' w) ->
              e ∈ events (_ffmpeg_decode env self v' w)).
    { intros e He.
      destruct (encode_direct_cases env self v' w Hv)
        as (_ & [(images & _ & -> & _)|(e' & _ & -> & _)]); [|auto].
      intros Hin. apply elem_of_app in Hin as [Hin|Hin]; [exact Hin|].
      apply list_elem_of_singleton in Hin. subst e. discriminate. }
    split.
    - intros p [Hin|Hin]; apply Hev in Hin; try reflexivity.
      + now apply decode_no_mktemp in Hin.
      + apply decode_mkdtemp_fresh in Hin as [Hf Hd]. now apply Hnone.
    - intros tmp d Hin _. apply Hev in Hin; [|reflexivity].
      now apply decode_no_mktemp in Hin. }
  destruct v as [a|s|o]; [|
    destruct (_copy_locally self) eqn:Hc; [|now apply Hdirect] |
    now apply Hdirect].
  - split.
    + intros p [Hin|Hin]; apply list_elem_of_singleton in Hin; discriminate.
    + intros tmp d Hin. apply list_elem_of_singleton in Hin. discriminate.
  - destruct (first_unused w (w_names w)) as [[tmp rest]|] eqn:Hfresh.
    2:{ rewrite (encode_copy_no_name env self s w Hc Hfresh). split.
        - intros p [Hin|Hin]; now apply elem_of_nil in Hin.
        - intros tmp d Hin. now apply elem_of_nil in Hin. }
    destruct (first_unused_fresh _ _ _ _ Hfresh) as [Hf Hd].
    destruct (encode_copy_cases env self s w tmp rest Hc Hfresh)
      as [(Hev & _)|(c & _ & _ & H)].
    { rewrite Hev. split.
      - intros p [Hin|Hin].
        + apply elem_of_cons in Hin as [Hin|Hin];
            [injection Hin as ->; now apply Hnone|].
          repeat (apply elem_of_cons in Hin as [Hin|Hin]; [discriminate|]).
          now apply elem_of_nil in Hin.
        + repeat (apply elem_of_cons in Hin as [Hin|Hin]; [discriminate|]).
          now apply elem_of_nil in Hin.
      - intros tmp' d _ Hin.
        repeat (apply elem_of_cons in Hin as [Hin|Hin]; [discriminate|]).
        now apply elem_of_nil in Hin. }
    cbv zeta in H.
    set (w2 := set_files (<[tmp:=c]> (w_files w)) (set_names rest w)) in *.
    assert (Htmp : forall p tail,
              EvMktemp p ∈ EvMktemp tmp :: EvCopy s tmp ::
                events (_ffmpeg_decode env self (PyStr tmp) w2) ++ tail ->
              Forall (fun e => forall q, e <> EvMktemp q) tail -> p = tmp).
    { intros p tail Hin Htail.
      apply elem_of_cons in Hin as [Hin|Hin]; [now injection Hin|].
      apply elem_of_cons in Hin as [Hin|Hin]; [discriminate|].
      apply elem_of_app in Hin as [Hin|Hin];
        [now apply decode_no_mktemp in Hin|].
      now destruct (proj1 (Forall_forall _ _) Htail _ Hin p). }
    assert (Hdir : forall d tail,
              EvMkdtemp d ∈ EvMktemp tmp :: EvCopy s tmp ::
                events (_ffmpeg_decode env self (PyStr tmp) w2) ++ tail ->
              Forall (fun e => forall q, e <> EvMkdtemp q) tail ->
              d <> tmp /\ path_exists w d = false).
    { intros d tail Hin Htail.
      do 2 (apply elem_of_cons in Hin as [Hin|Hin]; [discriminate|]).
      apply elem_of_app in Hin as [Hin|Hin].
      2:{ now destruct (proj1 (Forall_forall _ _) Htail _ Hin d). }
      apply decode_mkdtemp_fresh in Hin as [Hf2 Hd2]. simpl in Hf2, Hd2.
      assert (Hne : d <> tmp).
      { intros ->. rewrite lookup_insert_eq in Hf2. discriminate. }
      split; [exact Hne|]. apply Hnone; [|exact Hd2].
      now rewrite lookup_insert_ne in Hf2 by congruence. }
    assert (T1 : forall images,
              Forall (fun e => forall q, e <> EvMktemp q)
                     [EvUnlink tmp; EvSequenceEncode (EncFrames images)])
      by (intros; repeat constructor; discriminate).
    assert (T2 : Forall (fun e => forall q, e <> EvMktemp q) [EvUnlink tmp])
      by (repeat constructor; discriminate).
    assert (T3 : forall images,
              Forall (fun e => forall q, e <> EvMkdtemp q)
                     [EvUnlink tmp; EvSequenceEncode (EncFrames images)])
      by (intros; repeat constructor; discriminate).
    assert (T4 : Forall (fun e => forall q, e <> EvMkdtemp q) [EvUnlink tmp])
      by (repeat constructor; discriminate).
    destruct H as [(images & _ & -> & _)|(e & _ & -> & _)]; split.
    + intros p [Hin|Hin].
      * apply Htmp in Hin as ->; [now apply Hnone|apply T1].
      * now apply Hdir in Hin as [_ ?]; [|apply T3].
    + intros tmp' d Hin1 Hin2.
      apply Htmp in Hin1 as ->; [|apply T1].
      apply Hdir in Hin2 as [Hne _]; [congruence|apply T3].
    + intros p [Hin|Hin].
      * apply Htmp in Hin as ->; [now apply Hnone|apply T2].
      * now apply Hdir in Hin as [_ ?]; [|apply T4].
    + intros tmp' d Hin1 Hin2.
      apply Htmp in Hin1 as ->; [|apply T2].
      apply Hdir in Hin2 as [Hne _]; [congruence|apply T4].
Qed.

(** X9: with [copy_locally] on, the decoder is started on the temporary
    copy: the call takes a name, copies the source to it, makes the
    output directory and only then starts the decoder, with that name
    after [-i] and nothing on its standard input. *)
Theorem copy_is_what_is_decoded (self : Video) (s : string) (w : world)
    (argv : list string) (stdin : option bytes) :
  _copy_locally self = true ->
  EvPopen argv stdin ∈ events (encode_example env self (PyStr s) w) ->
  exists tmp d tail,
    events (encode_example env self (PyStr s) w)
    = EvMktemp tmp :: EvCopy s tmp :: EvMkdtemp d :: EvPopen argv stdin :: tail /\
    argv = ["ffmpeg"; "-i"; tmp] ++ _extra_ffmpeg_args self ++
           [os_path_join d ("%010d." +:+ _encoding_format self)] /\
    stdin = None /\ path_exists w tmp = false.
Proof.
  intros Hc Hin.
  destruct (first_unused w (w_names w)) as [[tmp rest]|] eqn:Hfresh.
  2:{ rewrite (encode_copy_no_name env self s w Hc Hfresh) in Hin.
      now apply elem_of_nil in Hin. }
  destruct (first_unused_fresh _ _ _ _ Hfresh) as [Hf Hd].
  destruct (encode_copy_cases env self s w tmp rest Hc Hfresh)
    as [(Hev & _)|(c & _ & _ & H)].
  { rewrite Hev in Hin.
    repeat (apply elem_of_cons in Hin as [Hin|Hin]; [discriminate|]).
    now apply elem_of_nil in Hin. }
  cbv zeta in H.
  set (w2 := set_files (<[tmp:=c]> (w_files w)) (set_names rest w)) in *.
  assert (Hdec : EvPopen argv stdin ∈ events (_ffmpeg_decode env self (PyStr tmp) w2)).
  { destruct H as [(images & _ & Hev & _)|(e & _ & Hev & _)];
      rewrite Hev in Hin;
      do 2 (apply elem_of_cons in Hin as [Hin|Hin]; [discriminate|]);
      apply elem_of_app in Hin as [Hin|Hin]; try exact Hin;
      repeat (apply elem_of_cons in Hin as [Hin|Hin]; [discriminate|]);
      now apply elem_of_nil in Hin. }
  destruct (decode_invoked_events env self (PyStr tmp) w2 argv stdin Hdec)
    as (d & _ & Hevd).
  destruct (decode_invoked env self (PyStr tmp) w2 argv stdin Hdec)
    as (source & d' & rest' & _ & Hargv & [-> ->] & Hmk & _).
  change (events (ffmpeg_input (PyStr tmp) w2)) with (@nil event) in Hevd.
  rewrite app_nil_l in Hevd.
  assert (d' = d) as ->.
  { rewrite Hevd in Hmk.
    apply elem_of_cons in Hmk as [Hmk|Hmk]; [now injection Hmk|].
    apply elem_of_cons in Hmk as [Hmk|Hmk]; [discriminate|].
    destruct (env_decoder env argv None (w_files w2)) as [msg|rc out err written].
    - apply list_elem_of_singleton in Hmk. discriminate.
    - destruct (Z.eqb rc 0).
      + apply elem_of_cons in Hmk as [Hmk|Hmk]; [discriminate|].
        apply elem_of_app in Hmk as [Hmk|Hmk].
        * apply list_elem_of_fmap in Hmk as (n & Hn & _). discriminate.
        * apply list_elem_of_singleton in Hmk. discriminate.
      + apply list_elem_of_singleton in Hmk. discriminate. }
  assert (Hp : path_exists w tmp = false)
    by (unfold path_exists; now rewrite Hf, Hd).
  destruct H as [(images & _ & Hev & _)|(e & _ & Hev & _)];
    rewrite Hev, Hevd; eexists tmp, d, _; (split; [reflexivity|]);
    repeat split; assumption.
Qed.

(** X10: for a decoder that treats its standard input as it treats a
    file, a stream that is open, can be rewound and was opened in binary
    mode is encoded as the file with the same content is (with
    [copy_locally] off): the same value, or an error of the same kind. *)
Theorem stream_agrees_with_path (self : Video) (s : string) (o : pyobject)
    (w : world) (c : bytes) :
  pipe_like_file env self ->
  _copy_locally self = false ->
  w_files w !! s = Some c -> s <> "pipe:0" ->
  readable_stream o = true -> ob_fault o = None -> ob_content o = c ->
  agree (res (encode_example env self (PyObj o) w))
        (res (encode_example env self (PyStr s) w)).
Proof.
  intros Hpipe Hc Hs Hs0 Ho Hfault Hcontent.
  apply encode_direct_agree; [exact I|exact Hc|].
  destruct (ffmpeg_decode_spec env self (PyObj o) w) as (_ & _ & H1).
  destruct (ffmpeg_input_spec (PyObj o) w) as (_ & _ & Hi).
  rewrite Ho, Hfault in Hi. destruct Hi as [Hr _].
  set (r0 := ffmpeg_input (PyObj o) w) in *. rewrite Hr in H1.
  pose proof (ffmpeg_decode_path env self s w) as H2. cbv zeta in H2.
  destruct (first_unused w (w_names w)) as [[d rest]|].
  2:{ destruct H1 as [-> _], H2 as [-> _]. reflexivity. }
  destruct H1 as [_ H1].
  cbv beta iota zeta delta [stdin_text stdin_bytes] in H1.
  change (([ffmpeg_path; "-i"; "pipe:0"] ++ _extra_ffmpeg_args self) ++
          [os_path_join d ("%010d." +:+ _encoding_format self)])
    with (ffmpeg_argv self "pipe:0" d) in H1.
  pose proof (Hpipe s d (w_files w) c Hs0 Hs) as Hsame.
  rewrite Hcontent in H1.
  destruct (env_decoder env (ffmpeg_argv self s d) None (w_files w))
    as [msg2|rc2 out2 err2 written2];
    destruct (env_decoder env (ffmpeg_argv self "pipe:0" d) (Some c) (w_files w))
      as [msg1|rc1 out1 err1 written1]; simpl in Hsame; try contradiction.
  - destruct H1 as [-> _], H2 as [-> _]. exact I.
  - destruct Hsame as [<- Hw].
    destruct (Z.eqb_spec rc2 0) as [Hz|_].
    + destruct H1 as [-> _], H2 as [-> _]. now rewrite (Hw Hz).
    + destruct H1 as [-> _], H2 as [-> _]. exact I.
Qed.

(** X11: [copy_locally] matters for paths only: on an array or on a
    stream, [encode_example] does the same with the flag on and off, and
    it never takes a temporary file name, copies or unlinks. *)
Theorem copy_locally_only_for_paths (self : Video) (v : pyvalue) (w : world) :
  (forall s, v <> PyStr s) ->
  (forall b,
     encode_example env (set_copy_locally b self) v w
     = encode_example env self v w) /\
  Forall (fun e => copies e = false) (events (encode_example env self v w)).
Proof.
  intros Hv. split.
  - intros b. destruct v as [a|s|o]; [reflexivity| |reflexivity].
    now destruct (Hv s).
  - destruct v as [a|s|o]; [repeat constructor|now destruct (Hv s)|].
    assert (Hdec : Forall (fun e => copies e = false)
                     (events (_ffmpeg_decode env self (PyObj o) w))).
    { eapply Forall_impl; [apply decode_events_kind|].
      intros e He. destruct e; try reflexivity; contradiction. }
    destruct (encode_direct_cases env self (PyObj o) w I)
      as (_ & [(images & _ & -> & _)|(e & _ & -> & _)]); [|exact Hdec].
    apply Forall_app. split; [exact Hdec|repeat constructor].
Qed.

(** X12: when [tempfile] has no unused name to offer, [encode_example]
    on a path raises [FileExistsError] at once, with [copy_locally] on
    or off: nothing is copied and the decoder is not started. *)
Theorem no_temporary_name (self : Video) (s : string) (w : world) :
  first_unused w (w_names w) = None ->
  res (encode_example env self (PyStr s) w) = Raise FileExistsError /\
  events (encode_example env self (PyStr s) w) = [].
Proof.
  intros Hnone. destruct (_copy_locally self) eqn:Hc.
  - rewrite (encode_copy_no_name env self s w Hc Hnone). split; reflexivity.
  - pose proof (ffmpeg_decode_path env self s w) as H. cbv zeta in H.
    rewrite Hnone in H. destruct H as [Hr He].
    destruct (encode_direct_cases env self (PyStr s) w Hc)
      as (_ & [(images & E & _)|(e & E & -> & ->)]).
    + rewrite Hr in E. discriminate.
    + rewrite Hr in E. injection E as <-. now split.
Qed.

(** X13: for a decoder whose exit status and frames depend only on the
    content of its input file, what [encode_example] makes of a path
    (with [copy_locally] off) does not depend on the rest of the world:
    two calls that find the same content at the path, in worlds with
    other files and other temporary names, end alike. *)
Theorem temporary_names_irrelevant (self : Video) (s : string) (w1 w2 : world) :
  reads_content_only env self ->
  _copy_locally self = false -> s <> "pipe:0" ->
  w_files w1 !! s = w_files w2 !! s ->
  is_Some (first_unused w1 (w_names w1)) ->
  is_Some (first_unused w2 (w_names w2)) ->
  agree (res (encode_example env self (PyStr s) w1))
        (res (encode_example env self (PyStr s) w2)).
Proof.
  intros Hdet Hc Hs0 Hsame [[d1 rest1] Hf1] [[d2 rest2] Hf2].
  apply encode_direct_agree; [exact Hc|exact Hc|].
  apply (decode_path_agree env self s s w1 w2 d1 rest1 d2 rest2 Hf1 Hf2).
  now apply Hdet.
Qed.


(** X15: when [seek(0)] or [read()] raises on a file object, the error
    reaches the caller of [encode_example] as it is; the world is
    untouched, no temporary directory has been made and the decoder has
    not been started. *)
Theorem stream_fault_propagates (self : Video) (o : pyobject) (w : world)
    (e : exn) :
  readable_stream o = true ->
  ob_fault o = Some (SeekRaises e) \/ ob_fault o = Some (ReadRaises e) ->
  let r := encode_example env self (PyObj o) w in
  res r = Raise e /\ post r = w /\ Forall quiet (events r) /\
  (ob_fault o = Some (SeekRaises e) -> events r = []) /\
  (ob_fault o = Some (ReadRaises e) -> events r = [EvSeek]).
Proof.
  intros Ho Hfault r. subst r.
  destruct (ffmpeg_input_spec (PyObj o) w) as (_ & Hq & Hi).
  destruct (ffmpeg_decode_spec env self (PyObj o) w) as (_ & _ & H).
  rewrite Ho in Hi.
  assert (Hr : res (ffmpeg_input (PyObj o) w) = Raise e).
  { destruct Hfault as [Hf|Hf]; rewrite Hf in Hi; apply Hi. }
  rewrite Hr in H. destruct H as (Hres & Hev & Hpost).
  destruct (encode_direct_cases env self (PyObj o) w I)
    as (Hp & [(images & E & _)|(e' & E & -> & ->)]).
  { rewrite Hres in E. discriminate. }
  rewrite Hres in E. injection E as <-.
  rewrite Hp, Hpost, Hev. repeat split; try assumption.
  - intros Hf. rewrite Hf in Hi. apply Hi.
  - intros Hf. rewrite Hf in Hi. apply Hi.
Qed.

End Extras.

(** ** The further properties on concrete calls *)

Lemma frames_in_index_order_witness :
  EvPopen Demo.argv0 None ∈
    events (_ffmpeg_decode Demo.env Demo.video (PyStr "video.mkv") Demo.world0) /\
  env_decoder Demo.env Demo.argv0 None (w_files Demo.world0)
  = Exited 0 "" "" (list_to_map (numbered "png" 1 ["C"; "A"; "B"])) /\
  res (_ffmpeg_decode Demo.env Demo.video (PyStr "video.mkv") Demo.world0)
  = Ok ["C"; "A"; "B"].
Proof.
  assert (Hin : EvPopen Demo.argv0 None ∈
    events (_ffmpeg_decode Demo.env Demo.video (PyStr "video.mkv") Demo.world0)).
  { vm_compute. apply list_elem_of_further, list_elem_of_here. }
  assert (Hdec : env_decoder Demo.env Demo.argv0 None (w_files Demo.world0)
    = Exited 0 "" "" (list_to_map (numbered (_encoding_format Demo.video) 1
                                            ["C"; "A"; "B"]))).
  { vm_compute. reflexivity. }
  split; [exact Hin|]. split; [exact Hdec|].
  apply (frames_in_index_order Demo.env Demo.video (PyStr "video.mkv")
           Demo.world0 Demo.argv0 None "" "" 1 ["C"; "A"; "B"]);
    [vm_compute; discriminate|exact Hin|exact Hdec].
Defined.

Lemma one_frame_per_file_witness :
  EvPopen Demo.argv0 None ∈
    events (_ffmpeg_decode Demo.env Demo.video (PyStr "video.mkv") Demo.world0) /\
  exists images,
    res (_ffmpeg_decode Demo.env Demo.video (PyStr "video.mkv") Demo.world0)
    = Ok images /\
    length images = size (Demo.frames_of 1 "CAB") /\
    forall c, c ∈ images <-> exists n, Demo.frames_of 1 "CAB" !! n = Some c.
Proof.
  assert (Hin : EvPopen Demo.argv0 None ∈
    events (_ffmpeg_decode Demo.env Demo.video (PyStr "video.mkv") Demo.world0)).
  { vm_compute. apply list_elem_of_further, list_elem_of_here. }
  split; [exact Hin|].
  exact (one_frame_per_file Demo.env Demo.video (PyStr "video.mkv") Demo.world0
           Demo.argv0 None "" "" (Demo.frames_of 1 "CAB") Hin eq_refl).
Defined.

Lemma failed_decode_reads_nothing_witness :
  EvPopen ["ffmpeg"; "-i"; "missing.mkv"; "-r"; "1"; "/tmp/tmp1/%010d.png"] None ∈
    events (_ffmpeg_decode Demo.env Demo.video (PyStr "missing.mkv") Demo.world0) /\
  Forall (fun e => reads e = false)
    (events (_ffmpeg_decode Demo.env Demo.video (PyStr "missing.mkv") Demo.world0)) /\
  is_raise (res (_ffmpeg_decode Demo.env Demo.video (PyStr "missing.mkv")
                   Demo.world0)) = true /\
  w_dirs (post (_ffmpeg_decode Demo.env Demo.video (PyStr "missing.mkv")
                  Demo.world0)) = w_dirs Demo.world0.
Proof.
  assert (Hin : EvPopen ["ffmpeg"; "-i"; "missing.mkv"; "-r"; "1";
                         "/tmp/tmp1/%010d.png"] None ∈
    events (_ffmpeg_decode Demo.env Demo.video (PyStr "missing.mkv") Demo.world0)).
  { vm_compute. apply list_elem_of_further, list_elem_of_here. }
  split; [exact Hin|].
  apply (failed_decode_reads_nothing Demo.env Demo.video (PyStr "missing.mkv")
           Demo.world0 _ None 1 "" "missing.mkv: No such file or directory" ∅
           Hin eq_refl).
  discriminate.
Defined.

Lemma spawn_failure_propagates_witness :
  EvPopen Demo.argv0 None ∈
    events (_ffmpeg_decode no_ffmpeg_env Demo.video (PyStr "video.mkv") Demo.world0) /\
  res (_ffmpeg_decode no_ffmpeg_env Demo.video (PyStr "video.mkv") Demo.world0)
  = Raise (OSError "ffmpeg: No such file or directory") /\
  Forall (fun e => reads e = false)
    (events (_ffmpeg_decode no_ffmpeg_env Demo.video (PyStr "video.mkv")
               Demo.world0)) /\
  w_dirs (post (_ffmpeg_decode no_ffmpeg_env Demo.video (PyStr "video.mkv")
                  Demo.world0)) = w_dirs Demo.world0.
Proof.
  assert (Hin : EvPopen Demo.argv0 None ∈
    events (_ffmpeg_decode no_ffmpeg_env Demo.video (PyStr "video.mkv")
              Demo.world0)).
  { vm_compute. apply list_elem_of_further, list_elem_of_here. }
  split; [exact Hin|].
  exact (spawn_failure_propagates no_ffmpeg_env Demo.video (PyStr "video.mkv")
           Demo.world0 Demo.argv0 None _ Hin eq_refl).
Defined.

Lemma result_comes_from_parent_witness :
  EvSequenceEncode (EncFrames ["C"; "A"; "B"]) ∈
    events (encode_example Demo.env Demo.video_copy (PyStr "video.mkv") Demo.world0) /\
  res (encode_example Demo.env Demo.video_copy (PyStr "video.mkv") Demo.world0)
  = env_sequence_encode Demo.env (EncFrames ["C"; "A"; "B"]).
Proof.
  assert (Hin : EvSequenceEncode (EncFrames ["C"; "A"; "B"]) ∈
    events (encode_example Demo.env Demo.video_copy (PyStr "video.mkv")
              Demo.world0)).
  { vm_compute. do 10 apply list_elem_of_further. apply list_elem_of_here. }
  split; [exact Hin|].
  exact (proj1 (result_comes_from_parent Demo.env Demo.video_copy
                  (PyStr "video.mkv") Demo.world0) _ Hin).
Defined.

Lemma temporary_names_fresh_and_distinct_witness :
  EvMktemp "/tmp/tmp1" ∈
    events (encode_example Demo.env Demo.video_copy (PyStr "video.mkv") Demo.world0) /\
  EvMkdtemp "/tmp/tmp2" ∈
    events (encode_example Demo.env Demo.video_copy (PyStr "video.mkv") Demo.world0) /\
  path_exists Demo.world0 "/tmp/tmp2" = false /\
  "/tmp/tmp1" <> "/tmp/tmp2".
Proof.
  assert (H1 : EvMktemp "/tmp/tmp1" ∈
    events (encode_example Demo.env Demo.video_copy (PyStr "video.mkv")
              Demo.world0)).
  { vm_compute. apply list_elem_of_here. }
  assert (H2 : EvMkdtemp "/tmp/tmp2" ∈
    events (encode_example Demo.env Demo.video_copy (PyStr "video.mkv")
              Demo.world0)).
  { vm_compute. do 2 apply list_elem_of_further. apply list_elem_of_here. }
  destruct (temporary_names_fresh_and_distinct Demo.env Demo.video_copy
              (PyStr "video.mkv") Demo.world0) as [Hfresh Hdist].
  split; [exact H1|]. split; [exact H2|].
  split; [exact (Hfresh _ (or_intror H2))|exact (Hdist _ _ H1 H2)].
Defined.

Lemma copy_is_what_is_decoded_witness :
  _copy_locally Demo.video_copy = true /\
  exists tmp d tail,
    events (encode_example Demo.env Demo.video_copy (PyStr "video.mkv") Demo.world0)
    = EvMktemp tmp :: EvCopy "video.mkv" tmp :: EvMkdtemp d ::
      EvPopen ["ffmpeg"; "-i"; "/tmp/tmp1"; "-r"; "1"; "/tmp/tmp2/%010d.png"] None
      :: tail /\
    ["ffmpeg"; "-i"; "/tmp/tmp1"; "-r"; "1"; "/tmp/tmp2/%010d.png"]
    = ["ffmpeg"; "-i"; tmp] ++ ["-r"; "1"] ++ [os_path_join d ("%010d." +:+ "png")] /\
    @None bytes = None /\ path_exists Demo.world0 tmp = false.
Proof.
  split; [reflexivity|].
  apply (copy_is_what_is_decoded Demo.env Demo.video_copy "video.mkv" Demo.world0
           ["ffmpeg"; "-i"; "/tmp/tmp1"; "-r"; "1"; "/tmp/tmp2/%010d.png"] None);
    [reflexivity|].
  vm_compute. do 3 apply list_elem_of_further. apply list_elem_of_here.
Defined.

Lemma demo_decoder_pipe_like_file (self : Video) :
  pipe_like_file Demo.env self.
Proof.
  intros src d files c Hsrc Hc.
  unfold ffmpeg_argv. simpl. unfold Demo.decoder. simpl.
  apply String.eqb_neq in Hsrc. rewrite Hsrc, Hc. simpl. auto.
Qed.

Lemma stream_agrees_with_path_witness :
  pipe_like_file Demo.env Demo.video /\
  readable_stream demo_video_stream = true /\
  ob_fault demo_video_stream = None /\
  agree (res (encode_example Demo.env Demo.video (PyObj demo_video_stream)
                Demo.world0))
        (res (encode_example Demo.env Demo.video (PyStr "video.mkv") Demo.world0)) /\
  res (encode_example Demo.env Demo.video (PyObj demo_video_stream) Demo.world0)
  = Ok (EncFrames ["C"; "A"; "B"]).
Proof.
  split; [apply demo_decoder_pipe_like_file|]. split; [reflexivity|].
  split; [reflexivity|]. split; [|vm_compute; reflexivity].
  apply (stream_agrees_with_path Demo.env Demo.video "video.mkv"
           demo_video_stream Demo.world0 "CAB").
  - apply demo_decoder_pipe_like_file.
  - reflexivity.
  - reflexivity.
  - discriminate.
  - reflexivity.
  - reflexivity.
  - reflexivity.
Defined.

Lemma copy_locally_only_for_paths_witness :
  (forall s, PyObj Demo.stream <> PyStr s) /\
  (forall b,
     encode_example Demo.env (set_copy_locally b Demo.video) (PyObj Demo.stream)
       Demo.world0
     = encode_example Demo.env Demo.video (PyObj Demo.stream) Demo.world0) /\
  Forall (fun e => copies e = false)
    (events (encode_example Demo.env Demo.video (PyObj Demo.stream) Demo.world0)).
Proof.
  split; [discriminate|].
  apply (copy_locally_only_for_paths Demo.env Demo.video
           (PyObj Demo.stream) Demo.world0).
  discriminate.
Defined.

Lemma no_temporary_name_witness :
  first_unused demo_other_world ["/var/tmp/a"; "/var/tmp/b"] = None /\
  res (encode_example Demo.env Demo.video_copy (PyStr "video.mkv")
         (set_names ["/var/tmp/a"; "/var/tmp/b"] demo_other_world))
  = Raise FileExistsError /\
  events (encode_example Demo.env Demo.video_copy (PyStr "video.mkv")
            (set_names ["/var/tmp/a"; "/var/tmp/b"] demo_other_world)) = [].
Proof.
  split; [reflexivity|].
  apply (no_temporary_name Demo.env Demo.video_copy "video.mkv"
           (set_names ["/var/tmp/a"; "/var/tmp/b"] demo_other_world)).
  reflexivity.
Defined.

Lemma temporary_names_irrelevant_witness :
  reads_content_only Demo.env Demo.video /\
  w_files Demo.world0 !! "video.mkv" = w_files demo_other_world !! "video.mkv" /\
  agree (res (encode_example Demo.env Demo.video (PyStr "video.mkv") Demo.world0))
        (res (encode_example Demo.env Demo.video (PyStr "video.mkv")
                demo_other_world)) /\
  events (encode_example Demo.env Demo.video (PyStr "video.mkv") demo_other_world)
  = [EvMkdtemp "/var/tmp/c";
     EvPopen ["ffmpeg"; "-i"; "video.mkv"; "-r"; "1"; "/var/tmp/c/%010d.png"] None;
     EvListdir "/var/tmp/c";
     EvOpen "/var/tmp/c/0000000001.png"; EvOpen "/var/tmp/c/0000000002.png";
     EvOpen "/var/tmp/c/0000000003.png"; EvRmtree "/var/tmp/c";
     EvSequenceEncode (EncFrames ["C"; "A"; "B"])].
Proof.
  split; [apply demo_decoder_reads_content_only|]. split; [reflexivity|].
  split; [|vm_compute; reflexivity].
  apply (temporary_names_irrelevant Demo.env Demo.video "video.mkv"
           Demo.world0 demo_other_world).
  - apply demo_decoder_reads_content_only.
  - reflexivity.
  - discriminate.
  - reflexivity.
  - eexists. reflexivity.
  - eexists. reflexivity.
Defined.


Lemma stream_fault_propagates_witness :
  readable_stream demo_closed_stream = true /\
  res (encode_example Demo.env Demo.video (PyObj demo_closed_stream) Demo.world0)
  = Raise (ValueError "seek of closed file") /\
  events (encode_example Demo.env Demo.video (PyObj demo_closed_stream)
            Demo.world0) = [] /\
  res (encode_example Demo.env Demo.video (PyObj demo_write_only_stream)
         Demo.world0)
  = Raise (UnsupportedOperation "not readable") /\
  events (encode_example Demo.env Demo.video (PyObj demo_write_only_stream)
            Demo.world0) = [EvSeek].
Proof.
  destruct (stream_fault_propagates Demo.env Demo.video demo_closed_stream
              Demo.world0 (ValueError "seek of closed file") eq_refl
              (or_introl eq_refl)) as (Hres & _ & _ & Hev & _).
  destruct (stream_fault_propagates Demo.env Demo.video demo_write_only_stream
              Demo.world0 (UnsupportedOperation "not readable") eq_refl
              (or_intror eq_refl)) as (Hres2 & _ & _ & _ & Hev2).
  split; [reflexivity|]. split; [exact Hres|]. split; [exact (Hev eq_refl)|].
  split; [exact Hres2|exact (Hev2 eq_refl)].
Defined.
